(** * django-websocket: the wire protocol of [django_websocket/protocols.py]

    A shallow embedding of the class [WebSocketProtocol] and proofs about
    its framing code.  The module is Python 2 code ([xrange], [ord] on
    one-character strings, [str] used as a byte string), so the embedding
    follows Python 2: a [str] is a sequence of bytes, a [unicode] is a
    sequence of code points, and [str.encode] first decodes with the ASCII
    codec. *)

From Stdlib Require Import ZArith List Bool Lia String.
From stdpp Require Import base list.
Import ListNotations.

Local Open Scope Z_scope.

(** ** Python values *)

(** A byte is an integer in [0, 256); a byte string is a list of them. *)
Abbreviation bytes := (list Z).

(** Python's [len]. *)
Definition len {A : Type} (l : list A) : Z := Z.of_nat (length l).

(** The two string types of Python 2. *)
Inductive pystr : Type :=
| PyStr (b : bytes)          (* [str]: bytes *)
| PyUnicode (u : list Z).    (* [unicode]: code points *)

Inductive sockerr : Type :=
| socket_closed              (* [socket.error('socket closed')], raised by [_recv_strict] *)
| EBADF.                     (* the operating system's error on a closed descriptor *)

(** The exceptions the module can meet. *)
Inductive exn : Type :=
| socket_error (why : sockerr)
| ValueError
| UnicodeDecodeError
| AttributeError (attr : string)
| struct_error
| IndexError
| OverflowError.

(** [socket.error] is a subclass of [IOError] (Python 2.6 and later); the
    other exceptions are not. *)
Definition is_IOError (e : exn) : bool :=
  match e with
  | socket_error _ => true
  | _ => false
  end.

(** The result of running a piece of code.  [OutOfFuel] belongs to the
    embedding only: it is what a loop gives when its iteration budget is
    used up, and the adequacy lemmas below show that the budgets the
    entry points compute are never used up. *)
Inductive outcome (A : Type) : Type :=
| Return (a : A)
| Raise (e : exn)
| OutOfFuel.
Arguments Return {A} a.
Arguments Raise {A} e.
Arguments OutOfFuel {A}.

(** Truth values of the objects the module tests with [if] and [not]. *)
Definition truthy_int (n : Z) : bool := negb (n =? 0).
Definition truthy_bytes (b : bytes) : bool :=
  match b with [] => false | _ :: _ => true end.
Definition truthy_opt {A : Type} (t : A -> bool) (v : option A) : bool :=
  match v with None => false | Some a => t a end.

(** [s[i]] followed by [ord], for a non-negative index. *)
Definition getitem (s : bytes) (i : nat) : outcome Z :=
  match s !! i with
  | Some b => Return b
  | None => Raise IndexError
  end.

(** ** The [struct] module, network byte order *)

(** The [k] low bytes of [v], most significant first. *)
Fixpoint be_bytes (k : nat) (v : Z) : bytes :=
  match k with
  | O => []
  | S k' => be_bytes k' (v / 256) ++ [v mod 256]
  end.

(** The number a big-endian byte string denotes. *)
Definition be_value (b : bytes) : Z :=
  fold_left (fun acc x => acc * 256 + x) b 0.

Definition in_range (lo v hi : Z) : bool := (lo <=? v) && (v <? hi).

(** [struct.pack("B", v)], [struct.pack("!H", v)], [struct.pack("!Q", v)]. *)
Definition pack_B (v : Z) : outcome bytes :=
  if in_range 0 v 256 then Return [v] else Raise struct_error.
Definition pack_H (v : Z) : outcome bytes :=
  if in_range 0 v 65536 then Return (be_bytes 2 v) else Raise struct_error.
Definition pack_Q (v : Z) : outcome bytes :=
  if in_range 0 v (2 ^ 64) then Return (be_bytes 8 v) else Raise struct_error.

(** [struct.unpack("!H", b)[0]] and [struct.unpack("!Q", b)[0]]. *)
Definition unpack_H (b : bytes) : outcome Z :=
  if (length b =? 2)%nat then Return (be_value b) else Raise struct_error.
Definition unpack_Q (b : bytes) : outcome Z :=
  if (length b =? 8)%nat then Return (be_value b) else Raise struct_error.

(** ** Text *)

(** The ASCII codec, which Python 2 applies whenever a [str] is used where a
    [unicode] is wanted. *)
Definition ascii_decode (b : bytes) : outcome (list Z) :=
  if forallb (fun x => x <? 128) b then Return b else Raise UnicodeDecodeError.

(** UTF-8 of one code point. *)
Definition utf8_char (c : Z) : bytes :=
  if c <? 0x80 then [c]
  else if c <? 0x800 then
    [Z.lor 0xC0 (Z.shiftr c 6); Z.lor 0x80 (Z.land c 0x3F)]
  else if c <? 0x10000 then
    [Z.lor 0xE0 (Z.shiftr c 12);
     Z.lor 0x80 (Z.land (Z.shiftr c 6) 0x3F);
     Z.lor 0x80 (Z.land c 0x3F)]
  else
    [Z.lor 0xF0 (Z.shiftr c 18);
     Z.lor 0x80 (Z.land (Z.shiftr c 12) 0x3F);
     Z.lor 0x80 (Z.land (Z.shiftr c 6) 0x3F);
     Z.lor 0x80 (Z.land c 0x3F)].

Definition utf8_encode (u : list Z) : bytes := concat (map utf8_char u).

(** [message.encode('utf8')].  On a [str] Python 2 decodes with ASCII
    first, so a byte of 0x80 or more raises [UnicodeDecodeError]. *)
Definition encode_utf8 (message : pystr) : outcome bytes :=
  match message with
  | PyUnicode u => Return (utf8_encode u)
  | PyStr b =>
      match ascii_decode b with
      | Return u => Return (utf8_encode u)
      | Raise e => Raise e
      | OutOfFuel => OutOfFuel
      end
  end.

(** [a + b] on strings: a [str] meeting a [unicode] is decoded with ASCII. *)
Definition py_add (a b : pystr) : outcome pystr :=
  match a, b with
  | PyStr x, PyStr y => Return (PyStr (x ++ y))
  | PyUnicode x, PyUnicode y => Return (PyUnicode (x ++ y))
  | PyStr x, PyUnicode y =>
      match ascii_decode x with
      | Return u => Return (PyUnicode (u ++ y))
      | Raise e => Raise e
      | OutOfFuel => OutOfFuel
      end
  | PyUnicode x, PyStr y =>
      match ascii_decode y with
      | Return u => Return (PyUnicode (x ++ u))
      | Raise e => Raise e
      | OutOfFuel => OutOfFuel
      end
  end.

(** ** The socket and the protocol object *)

(** A blocking stream socket.  [pending] holds the bytes on their way to
    us, in the segments in which [recv] will see them; when it is empty
    the peer has closed.  (A blocking [recv] returns no empty string before
    that; an empty segment in [pending] reads as one all the same.)  [reads]
    and [sent] record what every [recv] returned and what every [send] was
    given, oldest first.  [send] is taken to write the whole string, as the
    class takes it to. *)
Record socket : Type := mkSocket {
  pending : list bytes;
  reads : list bytes;
  sent : list bytes;
  sock_closed : bool
}.

(** The attributes of a [WebSocketProtocol] object ([__init__], lines
    37-41), and the position in the operating system's random source. *)
Record WebSocketProtocol : Type := mkProtocol {
  sock : socket;
  closed : bool;
  handshake_reply : option bytes;
  mask_outgoing : bool;
  entropy : nat -> Z;
  drawn : nat
}.

Definition __init__ (s : socket) (reply : option bytes) (mask : bool)
    (rnd : nat -> Z) : WebSocketProtocol :=
  mkProtocol s false reply mask rnd 0.

Definition set_sock (self : WebSocketProtocol) (s : socket) : WebSocketProtocol :=
  mkProtocol s (closed self) (handshake_reply self) (mask_outgoing self)
    (entropy self) (drawn self).

Definition set_closed (self : WebSocketProtocol) (c : bool) : WebSocketProtocol :=
  mkProtocol (sock self) c (handshake_reply self) (mask_outgoing self)
    (entropy self) (drawn self).

(** Number of bytes still to arrive. *)
Definition pending_size (self : WebSocketProtocol) : nat :=
  length (concat (pending (sock self))).

(** ** A monad for code that changes the object and may raise

    An exception leaves the changes made so far in place, as in Python. *)
Definition M (A : Type) : Type :=
  WebSocketProtocol -> outcome A * WebSocketProtocol.

Definition ret {A : Type} (a : A) : M A := fun self => (Return a, self).
Definition raise {A : Type} (e : exn) : M A := fun self => (Raise e, self).
Definition lift {A : Type} (o : outcome A) : M A := fun self => (o, self).

Definition bind {A B : Type} (m : M A) (k : A -> M B) : M B :=
  fun self =>
    match m self with
    | (Return a, self') => k a self'
    | (Raise e, self') => (Raise e, self')
    | (OutOfFuel, self') => (OutOfFuel, self')
    end.

(** [try: m  except E as e: h e], where [handles] tells the instances of [E]. *)
Definition try_except {A : Type} (m : M A) (handles : exn -> bool)
    (h : exn -> M A) : M A :=
  fun self =>
    match m self with
    | (Raise e, self') => if handles e then h e self' else (Raise e, self')
    | r => r
    end.

Declare Scope py_scope.
Delimit Scope py_scope with py.
Notation "x <- m ;; k" := (bind m (fun x => k))
  (at level 100, m at next level, right associativity) : py_scope.
Notation "m ;;; k" := (bind m (fun _ => k))
  (at level 100, right associativity) : py_scope.
Local Open Scope py_scope.

(** *** Socket operations *)

(** What is left of a segment goes back to the head of the queue. *)
Definition requeue (left : bytes) (rest : list bytes) : list bytes :=
  match left with
  | [] => rest
  | _ :: _ => left :: rest
  end.

(** [self.sock.recv(bufsize)]: at most [bufsize] bytes of the first
    segment; the empty string when the peer has closed.  The size is read as
    a C [int]: one that does not fit raises [OverflowError], a negative one
    [ValueError], and nothing is read. *)
Definition sock_recv (bufsize : Z) : M bytes := fun self =>
  let s := sock self in
  if sock_closed s then (Raise (socket_error EBADF), self)
  else if negb (in_range (- 2 ^ 31) bufsize (2 ^ 31)) then (Raise OverflowError, self)
  else if bufsize <? 0 then (Raise ValueError, self)
  else
    match pending s with
    | [] =>
        (Return [], set_sock self (mkSocket [] (reads s ++ [[]]) (sent s) false))
    | seg :: rest =>
        let got := take (Z.to_nat bufsize) seg in
        let left := drop (Z.to_nat bufsize) seg in
        (Return got,
         set_sock self (mkSocket (requeue left rest) (reads s ++ [got]) (sent s) false))
    end.

(** [self.sock.send(frame)] and [self.sock.sendall(frame)]. *)
Definition sock_send (frame : bytes) : M unit := fun self =>
  let s := sock self in
  if sock_closed s then (Raise (socket_error EBADF), self)
  else (Return tt, set_sock self (mkSocket (pending s) (reads s) (sent s ++ [frame]) false)).

(** [self.sock.close()]. *)
Definition sock_close : M unit := fun self =>
  let s := sock self in
  (Return tt, set_sock self (mkSocket (pending s) (reads s) (sent s) true)).

(** [os.urandom(n)]. *)
Definition os_urandom (n : nat) : M bytes := fun self =>
  (Return (map (fun i => entropy self i mod 256) (seq (drawn self) n)),
   mkProtocol (sock self) (closed self) (handshake_reply self)
     (mask_outgoing self) (entropy self) (drawn self + n)%nat).

(** ** The class [WebSocketProtocol] *)

Definition LENGTH_7 : Z := 0x7d.
Definition LENGTH_16 : Z := Z.shiftl 1 16.
Definition LENGTH_63 : Z := Z.shiftl 1 63.
Definition OPCODE_TEXT : Z := 0x1.
Definition OPCODE_BINARY : Z := 0x2.
Definition OPCODE_CLOSE : Z := 0x8.
Definition OPCODE_PING : Z := 0x9.
Definition OPCODE_PONG : Z := 0xa.
Definition STATUS_NORMAL : Z := 1000.

(** [close] (lines 210-212). *)
Definition close : M unit :=
  (fun self => (Return tt, set_closed self true)) ;;;
  sock_close.

(** [mask_or_unmask] (lines 68-81).  [_d] is updated in place at each index
    of [xrange(len(_d))]; [_m[i % 4]] raises [IndexError] on a key that is
    too short. *)
Fixpoint mask_loop (_m : bytes) (indices : list nat) (_d : bytes) : outcome bytes :=
  match indices with
  | [] => Return _d
  | i :: indices' =>
      match _d !! i, _m !! (i mod 4)%nat with
      | Some x, Some k => mask_loop _m indices' (<[i := Z.lxor x k]> _d)
      | _, _ => Raise IndexError
      end
  end.

Definition mask_or_unmask (mask_key data : bytes) : outcome bytes :=
  let _m := mask_key in
  let _d := data in
  mask_loop _m (seq 0 (length _d)) _d.

(** [_recv_strict] (lines 136-146).  Every turn of the loop that does not
    raise takes at least one byte off the stream, so one more turn than
    there are bytes pending is enough. *)
Fixpoint _recv_strict_loop (fuel : nat) (bufsize remaining : Z) (_bytes : bytes)
    : M bytes :=
  if truthy_int remaining then
    match fuel with
    | O => lift OutOfFuel
    | S fuel' =>
        _buffer <- sock_recv bufsize ;;
        if negb (truthy_bytes _buffer) then raise (socket_error socket_closed)
        else
          let _bytes := _bytes ++ _buffer in
          let remaining := bufsize - len _bytes in
          _recv_strict_loop fuel' bufsize remaining _bytes
    end
  else ret _bytes.

Definition _recv_strict (bufsize : Z) : M bytes := fun self =>
  let remaining := bufsize in
  let _bytes := [] in
  _recv_strict_loop (S (pending_size self)) bufsize remaining _bytes self.

(** What [recv_frame] returns: [fin], [opcode] and [data], each of which may
    be [None]. *)
Definition frame : Type := option Z * option Z * option bytes.

(** [recv_frame] (lines 107-134). *)
Definition recv_frame : M frame :=
  header_bytes <- _recv_strict 2 ;;
  if negb (truthy_bytes header_bytes) then ret (None, None, None)
  else
    b1 <- lift (getitem header_bytes 0) ;;
    let fin := Z.land (Z.shiftr b1 7) 1 in
    let opcode := Z.land b1 0xf in
    b2 <- lift (getitem header_bytes 1) ;;
    let mask := Z.land (Z.shiftr b2 7) 1 in
    let length := Z.land b2 0x7f in
    length <-
      (if length =? 0x7e then
         length_data <- _recv_strict 2 ;; lift (unpack_H length_data)
       else if length =? 0x7f then
         length_data <- _recv_strict 8 ;; lift (unpack_Q length_data)
       else ret length) ;;
    mask_key <- (if truthy_int mask then _recv_strict 4 else ret []) ;;
    data <- _recv_strict length ;;
    data <-
      (if truthy_int mask then lift (mask_or_unmask mask_key data)
       else ret data) ;;
    ret (Some fin, Some opcode, Some data).

(** The first part of [_write_frame] (lines 175-190): the bytes of the
    frame before the mask key and the payload, for a payload of [l] bytes. *)
Definition frame_header (mask_outgoing fin : bool) (opcode l : Z) : outcome bytes :=
  let finbit := if fin then 0x80 else 0 in
  match pack_B (Z.lor finbit opcode) with
  | Return frame =>
      let mask_bit := if mask_outgoing then 0x80 else 0 in
      if l <? 126 then
        match pack_B (Z.lor l mask_bit) with
        | Return b => Return (frame ++ b)
        | r => r
        end
      else if l <=? 0xFFFF then
        match pack_B (Z.lor 126 mask_bit), pack_H l with
        | Return b, Return h => Return (frame ++ b ++ h)
        | _, _ => Raise struct_error
        end
      else
        match pack_B (Z.lor 127 mask_bit), pack_Q l with
        | Return b, Return q => Return (frame ++ b ++ q)
        | _, _ => Raise struct_error
        end
  | r => r
  end.

(** [_write_frame] (lines 174-195).  The class has a method
    [mask_or_unmask] and none called [_apply_mask], and it defines no
    [__getattr__]: line 193 raises [AttributeError] once the key is drawn. *)
Definition _write_frame (fin : bool) (opcode : Z) (data : bytes) : M unit :=
  fun self =>
  (frame <- lift (frame_header (mask_outgoing self) fin opcode (len data)) ;;
   data <-
     (if mask_outgoing self then
        mask <- os_urandom 4 ;;
        masked <- raise (A := bytes) (AttributeError "_apply_mask") ;;
        ret (mask ++ masked)
      else ret data) ;;
   sock_send (frame ++ data)) self.

(** [send] (lines 197-208).  [binary] is any object; the callers in this
    class pass [False], or an opcode. *)
Definition send (message : pystr) (binary : Z) : M unit :=
  let opcode := if truthy_int binary then 0x2 else 0x1 in
  message <- lift (encode_utf8 message) ;;
  try_except (_write_frame true opcode message) is_IOError (fun e => close).

(** [ping] and [pong] (lines 52-66). *)
Definition ping (payload : pystr) : M unit := send payload OPCODE_PING.
Definition pong (payload : pystr) : M unit := send payload OPCODE_PONG.

(** [send_close] (lines 148-155). *)
Definition send_close (status : Z) (reason : pystr) : M unit :=
  if (status <? 0) || (status >=? LENGTH_16) then raise ValueError
  else
    packed <- lift (pack_H status) ;;
    message <- lift (py_add (PyStr packed) reason) ;;
    send message OPCODE_CLOSE.

(** [send_handshake_replay] (lines 157-159). *)
Definition send_handshake_replay : M unit := fun self =>
  match handshake_reply self with
  | Some reply => if truthy_bytes reply then sock_send reply self else (Return tt, self)
  | None => (Return tt, self)
  end.

(** The test of line 91: [not fin and not opcode and not data]. *)
Definition not_a_frame (f : frame) : bool :=
  let '(fin, opcode, data) := f in
  negb (truthy_opt truthy_int fin) && negb (truthy_opt truthy_int opcode)
  && negb (truthy_opt truthy_bytes data).

(** [opcode == c] and [opcode in (c1, c2)] for an [opcode] that may be [None]. *)
Definition opcode_is (opcode : option Z) (c : Z) : bool :=
  match opcode with Some o => o =? c | None => false end.

(** [recv_data] (lines 83-105).  A frame is at least two bytes, so the loop
    turns at most once per pending byte. *)
Fixpoint recv_data_loop (fuel : nat) : M (option Z * option bytes) :=
  match fuel with
  | O => lift OutOfFuel
  | S fuel' =>
      f <- recv_frame ;;
      let '(fin, opcode, data) := f in
      if not_a_frame f then raise ValueError
      else if opcode_is opcode OPCODE_TEXT || opcode_is opcode OPCODE_BINARY then
        ret (opcode, data)
      else if opcode_is opcode OPCODE_CLOSE then
        close ;;; ret (opcode, None)
      else if opcode_is opcode OPCODE_PING then
        match data with
        | Some d => pong (PyStr d)
        | None => raise (AttributeError "encode")
        end ;;;
        recv_data_loop fuel'
      else recv_data_loop fuel'
  end.

Definition recv_data : M (option Z * option bytes) := fun self =>
  recv_data_loop (S (pending_size self)) self.

(** [recv] (lines 43-50). *)
Definition recv : M (option bytes) :=
  r <- recv_data ;; ret (snd r).

(** [can_recv] (lines 161-172) waits on [select] with a timeout and is not
    part of the embedding. *)

(** ** Notions used in the statements *)

(** The key byte that index [i] of the data meets in [mask_or_unmask]. *)
Definition key_byte (mask_key : bytes) (i : nat) : Z := nth (i mod 4) mask_key 0.

(** [self'] differs from [self] by reads only: the bytes [got] have left the
    head of the stream and nothing else has changed but the log of reads. *)
Definition only_read (self self' : WebSocketProtocol) (got : bytes) : Prop :=
  concat (pending (sock self)) = got ++ concat (pending (sock self'))
  /\ sent (sock self') = sent (sock self)
  /\ sock_closed (sock self') = sock_closed (sock self)
  /\ closed self' = closed self
  /\ handshake_reply self' = handshake_reply self
  /\ mask_outgoing self' = mask_outgoing self
  /\ entropy self' = entropy self
  /\ drawn self' = drawn self.

(** What one successful call adds to the log of reads when a single [recv]
    is enough. *)
Definition log_of (b : bytes) : list bytes :=
  match b with
  | [] => []
  | _ :: _ => [b]
  end.

(** The first byte of a frame, and what the decoder makes of it. *)
Definition first_byte (fin : bool) (opcode : Z) : Z :=
  Z.lor (if fin then 0x80 else 0) opcode.

Definition fin_bit (fin : bool) : Z := if fin then 1 else 0.

(** The result of a call that returned, or that raised
    [socket.error('socket closed')] and nothing else. *)
Definition returns_or_closed {A : Type} (r : outcome A * WebSocketProtocol) : Prop :=
  match fst r with
  | Return _ => True
  | Raise e => e = socket_error socket_closed
  | OutOfFuel => False
  end.

(** A connection as [__init__] makes it, on a socket with the segments [p]
    on their way. *)
Definition connect (p : list bytes) (mask : bool) : WebSocketProtocol :=
  __init__ (mkSocket p [] [] false) None mask (fun _ => 0).

Arguments _recv_strict : simpl never.

(** * Proofs *)

(** ** The masking utility *)

Section Masking.

Variable mask_key : bytes.
Hypothesis four_bytes : length mask_key = 4%nat.

Lemma key_lookup (i : nat) : mask_key !! (i mod 4)%nat = Some (key_byte mask_key i).
Proof using four_bytes.
  unfold key_byte.
  destruct (nth_lookup_or_length mask_key (i mod 4) 0) as [H|H]; [exact H|].
  pose proof (Nat.mod_upper_bound i 4). lia.
Qed.

(** The loop over the indices [a, a + n) xors exactly those positions. *)
Lemma mask_loop_range (n a : nat) (d : bytes) :
  (a + n <= length d)%nat ->
  exists d', mask_loop mask_key (seq a n) d = Return d'
    /\ length d' = length d
    /\ forall j x, d !! j = Some x ->
         d' !! j = Some (if decide (a <= j < a + n)%nat
                         then Z.lxor x (key_byte mask_key j) else x).
Proof using four_bytes.
  revert a d. induction n as [|n IH]; intros a d Hlen.
  - exists d. split; [reflexivity|]. split; [reflexivity|].
    intros j x Hj. rewrite decide_False by lia. exact Hj.
  - cbn [seq mask_loop]. destruct (lookup_lt_is_Some_2 d a ltac:(lia)) as [xa Hxa].
    rewrite Hxa, key_lookup.
    destruct (IH (S a) (<[a := Z.lxor xa (key_byte mask_key a)]> d)) as (d' & Hrun & Hl & Hget).
    { rewrite length_insert. lia. }
    exists d'. split; [exact Hrun|]. split.
    { rewrite Hl. apply length_insert. }
    intros j x Hj. destruct (decide (j = a)) as [->|Hne].
    + rewrite (Hget a (Z.lxor xa (key_byte mask_key a))).
      * rewrite decide_False by lia. rewrite decide_True by lia. congruence.
      * apply list_lookup_insert_eq. eapply lookup_lt_Some; eassumption.
    + rewrite (Hget j x).
      * destruct (decide (S a <= j < S a + n)%nat), (decide (a <= j < a + S n)%nat);
          try reflexivity; lia.
      * rewrite list_lookup_insert_ne by congruence. exact Hj.
Qed.

(** [mask_or_unmask] never raises with a four-byte key, and xors byte [i]
    with key byte [i mod 4]. *)
Lemma mask_or_unmask_spec (data : bytes) :
  mask_or_unmask mask_key data
  = Return (imap (fun i x => Z.lxor x (key_byte mask_key i)) data).
Proof using four_bytes.
  unfold mask_or_unmask.
  destruct (mask_loop_range (length data) 0 data) as (d' & -> & Hl & Hget); [lia|].
  f_equal. apply list_eq. intros j. rewrite list_lookup_imap.
  destruct (data !! j) as [x|] eqn:Hj; simpl.
  - rewrite (Hget j x Hj). rewrite decide_True; [reflexivity|].
    apply lookup_lt_Some in Hj. lia.
  - apply lookup_ge_None. rewrite Hl. apply lookup_ge_None. exact Hj.
Qed.

Lemma mask_or_unmask_twice (data : bytes) :
  exists masked, mask_or_unmask mask_key data = Return masked
    /\ mask_or_unmask mask_key masked = Return data.
Proof using four_bytes.
  eexists. split; [apply mask_or_unmask_spec|].
  rewrite mask_or_unmask_spec. f_equal. apply list_eq. intros j.
  rewrite !list_lookup_imap. destruct (data !! j) as [x|]; simpl; [|reflexivity].
  rewrite Z.lxor_assoc, Z.lxor_nilpotent, Z.lxor_0_r. reflexivity.
Qed.

End Masking.

(** ** Network byte order *)

Lemma be_bytes_length (k : nat) (v : Z) : length (be_bytes k v) = k.
Proof.
  revert v. induction k as [|k IH]; intros v; [reflexivity|].
  cbn [be_bytes]. rewrite length_app, IH. simpl. lia.
Qed.

Lemma be_value_snoc (b : bytes) (x : Z) : be_value (b ++ [x]) = be_value b * 256 + x.
Proof. unfold be_value. rewrite fold_left_app. reflexivity. Qed.

Lemma be_value_be_bytes (k : nat) (v : Z) :
  be_value (be_bytes k v) = v mod 256 ^ Z.of_nat k.
Proof.
  revert v. induction k as [|k IH]; intros v.
  - simpl. rewrite Z.mod_1_r. reflexivity.
  - cbn [be_bytes]. rewrite be_value_snoc, IH.
    rewrite Nat2Z.inj_succ, Z.pow_succ_r by lia.
    rewrite Z.rem_mul_r by lia. lia.
Qed.

Lemma unpack_pack_H (l : Z) :
  0 <= l < 65536 -> pack_H l = Return (be_bytes 2 l) /\ unpack_H (be_bytes 2 l) = Return l.
Proof.
  intros Hl. unfold pack_H, unpack_H, in_range.
  rewrite be_bytes_length, be_value_be_bytes.
  replace (0 <=? l) with true by (symmetry; apply Z.leb_le; lia).
  replace (l <? 65536) with true by (symmetry; apply Z.ltb_lt; lia).
  split; [reflexivity|]. simpl. f_equal. apply Z.mod_small. lia.
Qed.

Lemma unpack_pack_Q (l : Z) :
  0 <= l < 2 ^ 64 -> pack_Q l = Return (be_bytes 8 l) /\ unpack_Q (be_bytes 8 l) = Return l.
Proof.
  intros Hl. unfold pack_Q, unpack_Q, in_range.
  rewrite be_bytes_length, be_value_be_bytes.
  replace (0 <=? l) with true by (symmetry; apply Z.leb_le; lia).
  replace (l <? 2 ^ 64) with true by (symmetry; apply Z.ltb_lt; lia).
  split; [reflexivity|]. simpl. f_equal. apply Z.mod_small. lia.
Qed.

(** ** The byte-exact reader *)

Lemma only_read_refl (self : WebSocketProtocol) : only_read self self [].
Proof. repeat split. Qed.

Lemma only_read_trans (s1 s2 s3 : WebSocketProtocol) (g1 g2 : bytes) :
  only_read s1 s2 g1 -> only_read s2 s3 g2 -> only_read s1 s3 (g1 ++ g2).
Proof.
  intros (Ga & ? & ? & ? & ? & ? & ? & ?) (Gb & ? & ? & ? & ? & ? & ? & ?).
  repeat split; try congruence. rewrite Ga, Gb. apply app_assoc.
Qed.

Lemma only_read_size (self self' : WebSocketProtocol) (got : bytes) :
  only_read self self' got -> pending_size self = (length got + pending_size self')%nat.
Proof. intros [H _]. unfold pending_size. rewrite H. apply length_app. Qed.

Lemma concat_requeue (left : bytes) (rest : list bytes) :
  concat (requeue left rest) = left ++ concat rest.
Proof. destruct left; reflexivity. Qed.

(** One [recv]: on a closed descriptor, or with a size that is negative or
    does not fit a C [int], it raises and reads nothing; otherwise it returns
    a piece of the head of the stream and logs it. *)
Lemma sock_recv_cases (bufsize : Z) (self : WebSocketProtocol) :
  (exists e, sock_recv bufsize self = (Raise e, self)
             /\ (sock_closed (sock self) = true
                 \/ bufsize < 0 /\ e <> socket_error socket_closed
                 \/ 2 ^ 31 <= bufsize /\ e = OverflowError))
  \/ (sock_closed (sock self) = false /\ 0 <= bufsize < 2 ^ 31
      /\ exists got self',
           sock_recv bufsize self = (Return got, self')
           /\ only_read self self' got
           /\ reads (sock self') = reads (sock self) ++ [got]).
Proof.
  unfold sock_recv, in_range. destruct self as [[p r s c] cl hr mo en dr]; simpl.
  destruct c; [left; eexists; split; [reflexivity|left; reflexivity]|].
  destruct (Z.leb_spec (- 2 ^ 31) bufsize) as [Hlo|Hlo]; simpl.
  2:{ left. eexists. split; [reflexivity|]. right. left. split; [lia|discriminate]. }
  destruct (Z.ltb_spec bufsize (2 ^ 31)) as [Hhi|Hhi]; simpl.
  2:{ left. eexists. split; [reflexivity|]. right. right. split; [lia|reflexivity]. }
  destruct (Z.ltb_spec bufsize 0) as [Hneg|Hneg].
  { left. eexists. split; [reflexivity|]. right. left. split; [lia|discriminate]. }
  right. split; [reflexivity|]. split; [lia|].
  destruct p as [|seg rest].
  - exists [], (mkProtocol (mkSocket [] (r ++ [[]]) s false) cl hr mo en dr).
    repeat split.
  - eexists _, _. split; [reflexivity|]. split; [|reflexivity].
    repeat split. simpl. rewrite concat_requeue, app_assoc, take_drop. reflexivity.
Qed.

Lemma len_nonneg {A : Type} (l : list A) : 0 <= len l.
Proof. unfold len. lia. Qed.

Lemma _recv_strict_loop_done (fuel : nat) (bufsize : Z) (_bytes : bytes) :
  _recv_strict_loop fuel bufsize 0 _bytes = ret _bytes.
Proof. destruct fuel; reflexivity. Qed.

Lemma truthy_bytes_false (b : bytes) : truthy_bytes b = false <-> b = [].
Proof. destruct b; simpl; split; congruence. Qed.

Lemma truthy_int_true (n : Z) : truthy_int n = true <-> n <> 0.
Proof. unfold truthy_int. destruct (Z.eqb_spec n 0); simpl; split; congruence. Qed.

(** When the loop returns, it returns [bufsize] bytes, they are the bytes
    that left the stream, in order, and the object is otherwise untouched. *)
Lemma _recv_strict_loop_returns (fuel : nat) (bufsize : Z) (acc b : bytes)
    (self self' : WebSocketProtocol) :
  _recv_strict_loop fuel bufsize (bufsize - len acc) acc self = (Return b, self') ->
  len b = bufsize /\ exists got, b = acc ++ got /\ only_read self self' got.
Proof.
  revert acc self. induction fuel as [|fuel IH]; intros acc self; cbn [_recv_strict_loop];
    destruct (truthy_int (bufsize - len acc)) eqn:Hrem.
  - discriminate.
  - intros [= <- <-]. apply not_true_iff_false in Hrem. rewrite truthy_int_true in Hrem.
    split; [lia|]. exists []. rewrite app_nil_r. split; [reflexivity|apply only_read_refl].
  - unfold bind at 1.
    destruct (sock_recv_cases bufsize self)
      as [(e & -> & _)|(_ & _ & got & s1 & -> & Hs1 & _)]; [discriminate|].
    destruct (truthy_bytes got); simpl; [|discriminate].
    intros Hrun. apply IH in Hrun as (Hlen & got' & -> & Hs2).
    split; [exact Hlen|]. exists (got ++ got'). rewrite app_assoc.
    split; [reflexivity|]. eapply only_read_trans; eassumption.
  - intros [= <- <-]. apply not_true_iff_false in Hrem. rewrite truthy_int_true in Hrem.
    split; [lia|]. exists []. rewrite app_nil_r. split; [reflexivity|apply only_read_refl].
Qed.

(** The budget [_recv_strict] gives its loop is never used up. *)
Lemma _recv_strict_loop_fuel (fuel : nat) (bufsize rem : Z) (acc : bytes)
    (self : WebSocketProtocol) :
  (pending_size self < fuel)%nat ->
  fst (_recv_strict_loop fuel bufsize rem acc self) <> OutOfFuel.
Proof.
  revert rem acc self. induction fuel as [|fuel IH]; intros rem acc self Hfuel; [lia|].
  cbn [_recv_strict_loop]. destruct (truthy_int rem); [|discriminate].
  unfold bind at 1.
  destruct (sock_recv_cases bufsize self)
    as [(e & -> & _)|(_ & _ & got & s1 & -> & Hs1 & _)]; [discriminate|].
  destruct got as [|x got]; simpl; [discriminate|].
  apply IH. apply only_read_size in Hs1. simpl in Hs1. lia.
Qed.

Lemma _recv_strict_unfold (bufsize : Z) (self : WebSocketProtocol) :
  _recv_strict bufsize self
  = _recv_strict_loop (S (pending_size self)) bufsize (bufsize - len (@nil Z)) [] self.
Proof. unfold _recv_strict, len. simpl. rewrite Z.sub_0_r. reflexivity. Qed.

Lemma _recv_strict_total (bufsize : Z) (self : WebSocketProtocol) :
  fst (_recv_strict bufsize self) <> OutOfFuel.
Proof. unfold _recv_strict. apply _recv_strict_loop_fuel. lia. Qed.

Lemma _recv_strict_returns (bufsize : Z) (b : bytes) (self self' : WebSocketProtocol) :
  _recv_strict bufsize self = (Return b, self') ->
  len b = bufsize /\ only_read self self' b.
Proof.
  rewrite _recv_strict_unfold. intros Hrun.
  apply _recv_strict_loop_returns in Hrun as (Hlen & got & -> & Hs).
  split; assumption.
Qed.

(** Once the bytes gathered can no longer come to [bufsize] exactly, because
    the stream is too short or because more than [bufsize] bytes have
    already been taken, the loop reads until the stream ends, meets one empty
    read, and raises at once. *)
Lemma _recv_strict_loop_never_full (fuel : nat) (bufsize : Z) (acc : bytes)
    (self : WebSocketProtocol) :
  0 <= bufsize < 2 ^ 31 ->
  sock_closed (sock self) = false ->
  bufsize < len acc \/ len acc + Z.of_nat (pending_size self) < bufsize ->
  (pending_size self < fuel)%nat ->
  exists self' chunks,
    _recv_strict_loop fuel bufsize (bufsize - len acc) acc self
      = (Raise (socket_error socket_closed), self')
    /\ reads (sock self') = reads (sock self) ++ chunks ++ [[]]
    /\ Forall (fun c => c <> []) chunks.
Proof.
  intros Hsize. revert acc self.
  induction fuel as [|fuel IH]; intros acc self Hopen Hnever Hfuel; [lia|].
  cbn [_recv_strict_loop].
  replace (truthy_int (bufsize - len acc)) with true
    by (symmetry; apply truthy_int_true; lia).
  unfold bind at 1.
  destruct (sock_recv_cases bufsize self)
    as [(e & _ & [Hc|[[Hn _]|[Hn _]]])|(_ & _ & got & s1 & -> & Hs1 & Hlog)];
    [congruence|lia|lia|].
  destruct got as [|x got]; simpl.
  - exists s1, []. split; [reflexivity|]. split; [exact Hlog|constructor].
  - pose proof (only_read_size _ _ _ Hs1) as Hleft. simpl in Hleft.
    destruct Hs1 as (_ & _ & Hopen1 & _).
    destruct (IH (acc ++ x :: got) s1) as (s2 & chunks & Hrun & Hreads & Hne).
    + congruence.
    + unfold len in *. rewrite length_app. simpl. lia.
    + lia.
    + exists s2, ((x :: got) :: chunks). split; [exact Hrun|]. split.
      * rewrite Hreads, Hlog, <- app_assoc. reflexivity.
      * constructor; [discriminate|exact Hne].
Qed.

Lemma _recv_strict_short (bufsize : Z) (self : WebSocketProtocol) :
  bufsize < 2 ^ 31 ->
  sock_closed (sock self) = false ->
  Z.of_nat (pending_size self) < bufsize ->
  exists self' chunks,
    _recv_strict bufsize self = (Raise (socket_error socket_closed), self')
    /\ reads (sock self') = reads (sock self) ++ chunks ++ [[]]
    /\ Forall (fun c => c <> []) chunks.
Proof.
  intros Hsize Hopen Hshort. rewrite _recv_strict_unfold.
  apply _recv_strict_loop_never_full; [lia|exact Hopen|right; exact Hshort|lia].
Qed.

(** One [recv] of a size in range on an open socket with a segment at the
    head of the stream. *)
Lemma sock_recv_head (bufsize : Z) (seg : bytes) (rest rd st : list bytes)
    (cl : bool) (hr : option bytes) (mo : bool) (en : nat -> Z) (dr : nat) :
  0 <= bufsize < 2 ^ 31 ->
  sock_recv bufsize (mkProtocol (mkSocket (seg :: rest) rd st false) cl hr mo en dr)
  = (Return (take (Z.to_nat bufsize) seg),
     mkProtocol
       (mkSocket (requeue (drop (Z.to_nat bufsize) seg) rest)
          (rd ++ [take (Z.to_nat bufsize) seg]) st false)
       cl hr mo en dr).
Proof.
  intros Hsize. unfold sock_recv, in_range.
  cbn [sock sock_closed pending reads sent set_sock closed handshake_reply
       mask_outgoing entropy drawn].
  replace (- 2 ^ 31 <=? bufsize) with true by (symmetry; apply Z.leb_le; lia).
  replace (bufsize <? 2 ^ 31) with true by (symmetry; apply Z.ltb_lt; lia).
  replace (bufsize <? 0) with false by (symmetry; apply Z.ltb_ge; lia).
  reflexivity.
Qed.

(** When the head segment holds all the bytes asked for, one [recv] gets
    them and the remainder of the segment stays at the head of the stream. *)
Lemma _recv_strict_segment (b tail : bytes) (rest rd st : list bytes)
    (cl : bool) (hr : option bytes) (mo : bool) (en : nat -> Z) (dr : nat) :
  len b < 2 ^ 31 ->
  _recv_strict (len b)
    (mkProtocol (mkSocket (requeue (b ++ tail) rest) rd st false) cl hr mo en dr)
  = (Return b,
     mkProtocol (mkSocket (requeue tail rest) (rd ++ log_of b) st false) cl hr mo en dr).
Proof.
  intros Hsize. destruct b as [|x b].
  - simpl. rewrite app_nil_r. reflexivity.
  - unfold _recv_strict. cbn [_recv_strict_loop].
    replace (truthy_int (len (x :: b))) with true
      by (symmetry; apply truthy_int_true; unfold len; simpl; lia).
    unfold bind. cbn [requeue app].
    rewrite sock_recv_head by (pose proof (len_nonneg (x :: b)); lia).
    unfold len. rewrite Nat2Z.id.
    change (x :: b ++ tail) with ((x :: b) ++ tail).
    rewrite take_app_length, drop_app_length.
    cbn [truthy_bytes negb app log_of].
    rewrite Z.sub_diag. rewrite _recv_strict_loop_done. reflexivity.
Qed.

(** ** Frames *)

(** The numbers 0 to 15, by cases. *)
Ltac each_opcode o :=
  let H := fresh in
  assert (H : o = 0 \/ o = 1 \/ o = 2 \/ o = 3 \/ o = 4 \/ o = 5 \/ o = 6 \/ o = 7
              \/ o = 8 \/ o = 9 \/ o = 10 \/ o = 11 \/ o = 12 \/ o = 13 \/ o = 14
              \/ o = 15) by lia;
  repeat (destruct H as [H|H]; [subst o|]); [..|subst o].

Lemma first_byte_decode (fin : bool) (opcode : Z) :
  0 <= opcode < 16 ->
  in_range 0 (first_byte fin opcode) 256 = true
  /\ Z.land (Z.shiftr (first_byte fin opcode) 7) 1 = fin_bit fin
  /\ Z.land (first_byte fin opcode) 0xf = opcode.
Proof.
  intros Ho. each_opcode opcode; destruct fin; repeat split.
Qed.

(** A length below 126, as the second byte of an unmasked frame. *)
Lemma short_length_decode (l : Z) :
  0 <= l < 126 ->
  Z.lor l 0 = l /\ in_range 0 l 256 = true
  /\ Z.land (Z.shiftr l 7) 1 = 0 /\ Z.land l 0x7f = l
  /\ (l =? 0x7e) = false /\ (l =? 0x7f) = false.
Proof.
  intros Hl. split; [apply Z.lor_0_r|]. split.
  { unfold in_range. apply andb_true_iff. split; [apply Z.leb_le|apply Z.ltb_lt]; lia. }
  split.
  { rewrite Z.shiftr_div_pow2 by lia. rewrite Z.div_small by (simpl; lia). reflexivity. }
  split.
  { change 0x7f with (Z.ones 7). rewrite Z.land_ones by lia. apply Z.mod_small. simpl; lia. }
  split; apply Z.eqb_neq; lia.
Qed.

(** The header of an unmasked frame, by the three forms of the length. *)
Lemma frame_header_unmasked (fin : bool) (opcode l : Z) :
  0 <= opcode < 16 -> 0 <= l < 2 ^ 64 ->
  frame_header false fin opcode l
  = Return (if l <? 126 then [first_byte fin opcode; l]
            else if l <=? 0xFFFF then [first_byte fin opcode; 126] ++ be_bytes 2 l
            else [first_byte fin opcode; 127] ++ be_bytes 8 l).
Proof.
  intros Ho Hl. unfold frame_header, pack_B.
  fold (first_byte fin opcode).
  destruct (first_byte_decode fin opcode Ho) as (-> & _).
  destruct (Z.ltb_spec l 126) as [H126|H126].
  - destruct (short_length_decode l ltac:(lia)) as (-> & -> & _). reflexivity.
  - destruct (Z.leb_spec l 0xFFFF) as [H16|H16].
    + destruct (unpack_pack_H l ltac:(lia)) as [-> _]. reflexivity.
    + destruct (unpack_pack_Q l ltac:(lia)) as [-> _]. reflexivity.
Qed.

Lemma _recv_strict_segment_n (n : Z) (b tail : bytes) (rest rd st : list bytes)
    (cl : bool) (hr : option bytes) (mo : bool) (en : nat -> Z) (dr : nat) :
  len b = n -> n < 2 ^ 31 ->
  _recv_strict n
    (mkProtocol (mkSocket (requeue (b ++ tail) rest) rd st false) cl hr mo en dr)
  = (Return b,
     mkProtocol (mkSocket (requeue tail rest) (rd ++ log_of b) st false) cl hr mo en dr).
Proof. intros <-. apply _recv_strict_segment. Qed.

(** Decoding an unmasked frame that is at the head of the stream in one
    piece. *)
Lemma recv_frame_unmasked (fin : bool) (opcode : Z) (data : bytes)
    (rest rd st : list bytes) (cl : bool) (hr : option bytes) (mo : bool)
    (en : nat -> Z) (dr : nat) (hdr : bytes) :
  0 <= opcode < 16 -> len data < 2 ^ 31 ->
  frame_header false fin opcode (len data) = Return hdr ->
  exists rd',
    recv_frame
      (mkProtocol (mkSocket ((hdr ++ data) :: rest) rd st false) cl hr mo en dr)
    = (Return (Some (fin_bit fin), Some opcode, Some data),
       mkProtocol (mkSocket rest rd' st false) cl hr mo en dr).
Proof.
  intros Ho Hl. rewrite frame_header_unmasked by (unfold len in *; lia).
  destruct (first_byte_decode fin opcode Ho) as (_ & Hfin & Hop).
  pose proof (_recv_strict_segment data [] rest) as Hdata.
  rewrite app_nil_r in Hdata.
  destruct (Z.ltb_spec (len data) 126) as [H126|H126]; [|destruct (Z.leb_spec (len data) 0xFFFF) as [H16|H16]].
  - destruct (short_length_decode (len data) ltac:(unfold len in *; lia))
      as (_ & _ & Hm & Hlen & Hne & Hnf).
    intros [= <-]. unfold recv_frame, bind at 1.
    rewrite (_recv_strict_segment [first_byte fin opcode; len data] data rest) by reflexivity.
    unfold bind, lift, getitem, ret. simpl.
    rewrite Hlen, Hne, Hnf, Hm, Hfin, Hop. simpl. rewrite Hdata by exact Hl. simpl.
    eexists. reflexivity.
  - destruct (unpack_pack_H (len data) ltac:(lia)) as [_ Hun].
    pose proof (be_bytes_length 2 (len data)) as Hext.
    revert Hun Hext. generalize (be_bytes 2 (len data)). intros ext Hun Hext [= <-].
    unfold recv_frame, bind at 1. cbn [app].
    rewrite (_recv_strict_segment [first_byte fin opcode; 126] (ext ++ data) rest) by reflexivity.
    unfold bind, lift, getitem, ret. simpl.
    rewrite Hfin, Hop.
    rewrite (_recv_strict_segment_n 2 ext data)
      by (reflexivity || (unfold len; rewrite Hext; reflexivity)).
    rewrite Hun. rewrite Hdata by exact Hl. eexists. reflexivity.
  - destruct (unpack_pack_Q (len data) ltac:(unfold len in *; lia)) as [_ Hun].
    pose proof (be_bytes_length 8 (len data)) as Hext.
    revert Hun Hext. generalize (be_bytes 8 (len data)). intros ext Hun Hext [= <-].
    unfold recv_frame, bind at 1. cbn [app].
    rewrite (_recv_strict_segment [first_byte fin opcode; 127] (ext ++ data) rest) by reflexivity.
    unfold bind, lift, getitem, ret. simpl.
    rewrite Hfin, Hop.
    rewrite (_recv_strict_segment_n 8 ext data)
      by (reflexivity || (unfold len; rewrite Hext; reflexivity)).
    rewrite Hun. rewrite Hdata by exact Hl. eexists. reflexivity.
Qed.


(** ** The write side *)

(** A length below 128 with the mask bit set is one more than 127. *)
Lemma mask_bit_lor (l : Z) : 0 <= l < 128 -> Z.lor l 0x80 = l + 128.
Proof.
  intros Hl. assert (Hland : Z.land l 0x80 = 0).
  { rewrite <- (Z.mod_small l (2 ^ 7)) by (simpl; lia).
    rewrite <- Z.land_ones by lia. rewrite <- Z.land_assoc. apply Z.land_0_r. }
  rewrite <- Z.lxor_lor by exact Hland. symmetry. apply Z.add_nocarry_lxor. exact Hland.
Qed.

(** With masking on, the header is built as well, whatever the length. *)
Lemma frame_header_masked (fin : bool) (opcode l : Z) :
  0 <= opcode < 16 -> 0 <= l < 2 ^ 64 ->
  frame_header true fin opcode l
  = Return (if l <? 126 then [first_byte fin opcode; l + 128]
            else if l <=? 0xFFFF then [first_byte fin opcode; 254] ++ be_bytes 2 l
            else [first_byte fin opcode; 255] ++ be_bytes 8 l).
Proof.
  intros Ho Hl. unfold frame_header, pack_B.
  fold (first_byte fin opcode).
  destruct (first_byte_decode fin opcode Ho) as (-> & _).
  destruct (Z.ltb_spec l 126) as [H126|H126].
  - rewrite mask_bit_lor by lia.
    replace (in_range 0 (l + 128) 256) with true; [reflexivity|].
    symmetry. unfold in_range. apply andb_true_iff.
    split; [apply Z.leb_le|apply Z.ltb_lt]; lia.
  - destruct (Z.leb_spec l 0xFFFF) as [H16|H16].
    + destruct (unpack_pack_H l ltac:(lia)) as [-> _]. reflexivity.
    + destruct (unpack_pack_Q l ltac:(lia)) as [-> _]. reflexivity.
Qed.

(** An unmasked [_write_frame] on an open socket hands header and payload
    to [send] as one string. *)
Lemma _write_frame_unmasked (fin : bool) (opcode : Z) (data : bytes)
    (p rd st : list bytes) (cl : bool) (hr : option bytes) (en : nat -> Z) (dr : nat) :
  0 <= opcode < 16 -> len data < 2 ^ 64 ->
  exists hdr,
    frame_header false fin opcode (len data) = Return hdr
    /\ _write_frame fin opcode data
         (mkProtocol (mkSocket p rd st false) cl hr false en dr)
       = (Return tt,
          mkProtocol (mkSocket p rd (st ++ [hdr ++ data]) false) cl hr false en dr).
Proof.
  intros Ho Hl. pose proof (len_nonneg data).
  eexists. split; [apply frame_header_unmasked; lia|].
  unfold _write_frame. cbn [mask_outgoing].
  rewrite frame_header_unmasked by lia. reflexivity.
Qed.

(** With masking on, [_write_frame] draws a key and raises: nothing is
    written. *)
Lemma _write_frame_masked (fin : bool) (opcode : Z) (data : bytes)
    (s : socket) (cl : bool) (hr : option bytes) (en : nat -> Z) (dr : nat) :
  0 <= opcode < 16 -> len data < 2 ^ 64 ->
  _write_frame fin opcode data (mkProtocol s cl hr true en dr)
  = (Raise (AttributeError "_apply_mask"), mkProtocol s cl hr true en (dr + 4)).
Proof.
  intros Ho Hl. pose proof (len_nonneg data).
  unfold _write_frame. cbn [mask_outgoing].
  rewrite frame_header_masked by lia. reflexivity.
Qed.

(** [send] on an unmasked, open connection: the message is encoded, and the
    frame carries opcode 2 when [binary] is true and 1 when it is not. *)
Lemma send_unmasked (message : pystr) (binary : Z) (payload : bytes)
    (p rd st : list bytes) (cl : bool) (hr : option bytes) (en : nat -> Z) (dr : nat) :
  encode_utf8 message = Return payload -> len payload < 2 ^ 64 ->
  exists hdr,
    frame_header false true (if truthy_int binary then 2 else 1) (len payload)
      = Return hdr
    /\ send message binary (mkProtocol (mkSocket p rd st false) cl hr false en dr)
       = (Return tt,
          mkProtocol (mkSocket p rd (st ++ [hdr ++ payload]) false) cl hr false en dr).
Proof.
  intros Henc Hl.
  destruct (_write_frame_unmasked true (if truthy_int binary then 2 else 1) payload
              p rd st cl hr en dr) as (hdr & Hhdr & Hw);
    [destruct (truthy_int binary); lia|exact Hl|].
  exists hdr. split; [exact Hhdr|].
  unfold send, bind, lift, try_except. rewrite Henc, Hw. reflexivity.
Qed.

(** An ASCII byte string is its own UTF-8 encoding; any other byte string
    cannot be encoded. *)
Lemma utf8_encode_ascii (b : bytes) :
  forallb (fun x => x <? 128) b = true -> utf8_encode b = b.
Proof.
  unfold utf8_encode. induction b as [|x b IH]; [reflexivity|].
  cbn [forallb map concat]. intros [Hx Hb]%andb_true_iff.
  rewrite (IH Hb). unfold utf8_char. change 0x80 with 128. rewrite Hx. reflexivity.
Qed.

Lemma encode_utf8_str (b : bytes) :
  encode_utf8 (PyStr b)
  = if forallb (fun x => x <? 128) b then Return b else Raise UnicodeDecodeError.
Proof.
  unfold encode_utf8, ascii_decode.
  destruct (forallb (fun x => x <? 128) b) eqn:Hb; [|reflexivity].
  rewrite utf8_encode_ascii by exact Hb. reflexivity.
Qed.

(** A length below 126 with the mask bit set, as the decoder reads it. *)
Lemma masked_length_decode (l : Z) :
  0 <= l < 126 ->
  Z.land (Z.shiftr (l + 128) 7) 1 = 1 /\ Z.land (l + 128) 0x7f = l
  /\ (l =? 0x7e) = false /\ (l =? 0x7f) = false.
Proof.
  intros Hl. split.
  { rewrite Z.shiftr_div_pow2 by lia.
    replace ((l + 128) / 2 ^ 7) with 1; [reflexivity|].
    apply Z.div_unique with (r := l); simpl; lia. }
  split.
  { change 0x7f with (Z.ones 7). rewrite Z.land_ones by lia.
    symmetry. apply Z.mod_unique with (q := 1); simpl; lia. }
  split; apply Z.eqb_neq; lia.
Qed.

(** Decoding a masked frame that is at the head of the stream in one piece:
    header, key, and the payload xored with the key. *)
Lemma recv_frame_masked (fin : bool) (opcode : Z) (data key masked : bytes)
    (rest rd st : list bytes) (cl : bool) (hr : option bytes) (mo : bool)
    (en : nat -> Z) (dr : nat) (hdr : bytes) :
  0 <= opcode < 16 -> len data < 2 ^ 31 -> length key = 4%nat ->
  frame_header true fin opcode (len data) = Return hdr ->
  mask_or_unmask key data = Return masked ->
  exists rd',
    recv_frame
      (mkProtocol (mkSocket ((hdr ++ key ++ masked) :: rest) rd st false) cl hr mo en dr)
    = (Return (Some (fin_bit fin), Some opcode, Some data),
       mkProtocol (mkSocket rest rd' st false) cl hr mo en dr).
Proof.
  intros Ho Hl Hkey. pose proof (len_nonneg data) as Hpos.
  rewrite frame_header_masked by lia.
  destruct (first_byte_decode fin opcode Ho) as (_ & Hfin & Hop).
  intros Hhdr Hmask.
  assert (Hback : mask_or_unmask key masked = Return data).
  { destruct (mask_or_unmask_twice key Hkey data) as (m & Hm & Hb). congruence. }
  assert (Hlm : len masked = len data).
  { rewrite mask_or_unmask_spec in Hmask by exact Hkey. injection Hmask as <-.
    unfold len. rewrite length_imap. reflexivity. }
  pose proof (_recv_strict_segment_n (len data) masked [] rest) as Hdata.
  rewrite app_nil_r in Hdata.
  pose proof (_recv_strict_segment_n 4 key masked rest) as Hk.
  revert Hhdr.
  destruct (Z.ltb_spec (len data) 126) as [H126|H126];
    [|destruct (Z.leb_spec (len data) 0xFFFF) as [H16|H16]].
  - destruct (masked_length_decode (len data) ltac:(lia)) as (Hm & Hlen & Hne & Hnf).
    intros [= <-]. unfold recv_frame, bind at 1. cbn [app].
    rewrite (_recv_strict_segment [first_byte fin opcode; len data + 128] (key ++ masked) rest) by reflexivity.
    unfold bind, lift, getitem, ret. simpl.
    rewrite Hlen, Hne, Hnf, Hm, Hfin, Hop. simpl.
    rewrite Hk by (reflexivity || (unfold len; rewrite Hkey; reflexivity)).
    rewrite Hdata by (exact Hlm || exact Hl). rewrite Hback. eexists. reflexivity.
  - destruct (unpack_pack_H (len data) ltac:(lia)) as [_ Hun].
    pose proof (be_bytes_length 2 (len data)) as Hext.
    revert Hun Hext. generalize (be_bytes 2 (len data)). intros ext Hun Hext [= <-].
    unfold recv_frame, bind at 1. cbn [app].
    rewrite (_recv_strict_segment [first_byte fin opcode; 254] (ext ++ key ++ masked) rest) by reflexivity.
    unfold bind, lift, getitem, ret. simpl.
    rewrite Hfin, Hop.
    rewrite (_recv_strict_segment_n 2 ext (key ++ masked))
      by (reflexivity || (unfold len; rewrite Hext; reflexivity)).
    rewrite Hun.
    rewrite Hk by (reflexivity || (unfold len; rewrite Hkey; reflexivity)).
    rewrite Hdata by (exact Hlm || exact Hl). rewrite Hback. eexists. reflexivity.
  - destruct (unpack_pack_Q (len data) ltac:(lia)) as [_ Hun].
    pose proof (be_bytes_length 8 (len data)) as Hext.
    revert Hun Hext. generalize (be_bytes 8 (len data)). intros ext Hun Hext [= <-].
    unfold recv_frame, bind at 1. cbn [app].
    rewrite (_recv_strict_segment [first_byte fin opcode; 255] (ext ++ key ++ masked) rest) by reflexivity.
    unfold bind, lift, getitem, ret. simpl.
    rewrite Hfin, Hop.
    rewrite (_recv_strict_segment_n 8 ext (key ++ masked))
      by (reflexivity || (unfold len; rewrite Hext; reflexivity)).
    rewrite Hun.
    rewrite Hk by (reflexivity || (unfold len; rewrite Hkey; reflexivity)).
    rewrite Hdata by (exact Hlm || exact Hl). rewrite Hback. eexists. reflexivity.
Qed.

(** ** The dispatcher *)

Lemma bind_Return {A B : Type} (m : M A) (k : A -> M B)
    (self self' : WebSocketProtocol) (b : B) :
  bind m k self = (Return b, self') ->
  exists a s1, m self = (Return a, s1) /\ k a s1 = (Return b, self').
Proof.
  unfold bind. destruct (m self) as [[a|e|] s1]; try discriminate.
  intros H. exists a, s1. split; [reflexivity|exact H].
Qed.

Lemma lift_Return {A : Type} (o : outcome A) (self self' : WebSocketProtocol) (a : A) :
  lift o self = (Return a, self') -> o = Return a /\ self' = self.
Proof. unfold lift. intros [= -> ->]. split; reflexivity. Qed.

(** A read of [n] bytes that returns, seen as a step of the stream. *)
Lemma _recv_strict_step (n : Z) (b : bytes) (self self' : WebSocketProtocol) :
  _recv_strict n self = (Return b, self') ->
  only_read self self' b /\ Z.of_nat (length b) = n.
Proof. intros H. apply _recv_strict_returns in H as [Hlen Hs]. split; assumption. Qed.

(** A frame that [recv_frame] returns has all three fields, and at least
    its two header bytes have left the stream; nothing else has changed. *)
Lemma recv_frame_returns (self self' : WebSocketProtocol) (f : frame) :
  recv_frame self = (Return f, self') ->
  exists fin opcode data got,
    f = (Some fin, Some opcode, Some data)
    /\ only_read self self' got /\ (2 <= length got)%nat.
Proof.
  unfold recv_frame. intros H.
  apply bind_Return in H as (hb & s1 & Hhdr & H).
  apply _recv_strict_step in Hhdr as [Hs1 Hlen].
  destruct hb as [|x0 [|x1 hb]]; simpl in Hlen; try lia.
  cbn [truthy_bytes negb] in H.
  apply bind_Return in H as (b1 & s2 & Hb1 & H). apply lift_Return in Hb1 as [_ ->].
  apply bind_Return in H as (b2 & s2 & Hb2 & H). apply lift_Return in Hb2 as [_ ->].
  apply bind_Return in H as (l & s2 & Hl & H).
  assert (exists g2, only_read s1 s2 g2) as [g2 Hs2].
  { destruct (Z.land b2 127 =? 126).
    - apply bind_Return in Hl as (ld & s & Hr & Hu). apply lift_Return in Hu as [_ ->].
      apply _recv_strict_step in Hr as [Hr _]. eauto.
    - destruct (Z.land b2 127 =? 127).
      + apply bind_Return in Hl as (ld & s & Hr & Hu). apply lift_Return in Hu as [_ ->].
        apply _recv_strict_step in Hr as [Hr _]. eauto.
      + injection Hl as _ <-. exists []. apply only_read_refl. }
  apply bind_Return in H as (mk & s3 & Hmk & H).
  assert (exists g3, only_read s2 s3 g3) as [g3 Hs3].
  { destruct (truthy_int (Z.land (Z.shiftr b2 7) 1)).
    - apply _recv_strict_step in Hmk as [Hr _]. eauto.
    - injection Hmk as _ <-. exists []. apply only_read_refl. }
  apply bind_Return in H as (d & s4 & Hd & H).
  apply _recv_strict_step in Hd as [Hs4 _].
  apply bind_Return in H as (d' & s5 & Hd' & H).
  assert (s5 = s4) as ->.
  { destruct (truthy_int (Z.land (Z.shiftr b2 7) 1)).
    - apply lift_Return in Hd' as [_ ->]. reflexivity.
    - injection Hd' as _ <-. reflexivity. }
  injection H as <- <-.
  exists (Z.land (Z.shiftr b1 7) 1), (Z.land b1 15), d',
    ((((x0 :: x1 :: hb) ++ g2) ++ g3) ++ d).
  split; [reflexivity|]. split.
  - repeat (eapply only_read_trans; [|eassumption]). exact Hs1.
  - rewrite !length_app. simpl. lia.
Qed.

(** *** On an open socket the reader returns or reports the end of the
    stream *)

Lemma _recv_strict_loop_open (fuel : nat) (bufsize rem : Z) (acc : bytes)
    (self : WebSocketProtocol) :
  0 <= bufsize < 2 ^ 31 ->
  sock_closed (sock self) = false ->
  (pending_size self < fuel)%nat ->
  returns_or_closed (_recv_strict_loop fuel bufsize rem acc self).
Proof.
  intros Hsize. revert rem acc self.
  induction fuel as [|fuel IH]; intros rem acc self Hopen Hfuel; [lia|].
  cbn [_recv_strict_loop]. destruct (truthy_int rem); [|exact I].
  unfold bind at 1.
  destruct (sock_recv_cases bufsize self)
    as [(e & _ & [Hc|[[Hn _]|[Hn _]]])|(_ & _ & got & s1 & -> & Hs1 & _)];
    [congruence|lia|lia|].
  destruct got as [|x got]; simpl; [reflexivity|].
  pose proof (only_read_size _ _ _ Hs1) as Hleft. simpl in Hleft.
  destruct Hs1 as (_ & _ & Hopen1 & _).
  apply IH; [congruence|lia].
Qed.

Lemma _recv_strict_open (bufsize : Z) (self : WebSocketProtocol) :
  0 <= bufsize < 2 ^ 31 ->
  sock_closed (sock self) = false ->
  returns_or_closed (_recv_strict bufsize self).
Proof.
  intros Hsize Hopen. unfold _recv_strict.
  apply _recv_strict_loop_open; [exact Hsize|exact Hopen|lia].
Qed.

(** *** The loops' budgets are never used up *)

Lemma bind_fuel {A B : Type} (m : M A) (k : A -> M B) (self : WebSocketProtocol) :
  fst (m self) <> OutOfFuel ->
  (forall a s, m self = (Return a, s) -> fst (k a s) <> OutOfFuel) ->
  fst (bind m k self) <> OutOfFuel.
Proof.
  unfold bind. destruct (m self) as [[a|e|] s]; simpl; intros Hm Hk.
  - apply Hk. reflexivity.
  - discriminate.
  - exfalso. apply Hm. reflexivity.
Qed.

Lemma getitem_fuel (s : bytes) (i : nat) : getitem s i <> OutOfFuel.
Proof. unfold getitem. destruct (s !! i); discriminate. Qed.

Lemma unpack_H_fuel (b : bytes) : unpack_H b <> OutOfFuel.
Proof. unfold unpack_H. destruct (length b =? 2)%nat; discriminate. Qed.

Lemma unpack_Q_fuel (b : bytes) : unpack_Q b <> OutOfFuel.
Proof. unfold unpack_Q. destruct (length b =? 8)%nat; discriminate. Qed.

Lemma mask_loop_fuel (m d : bytes) (indices : list nat) :
  mask_loop m indices d <> OutOfFuel.
Proof.
  revert d. induction indices as [|i indices IH]; intros d; cbn [mask_loop]; [discriminate|].
  destruct (d !! i); [|discriminate]. destruct (m !! (i mod 4)%nat); [apply IH|discriminate].
Qed.

Lemma recv_frame_total (self : WebSocketProtocol) :
  fst (recv_frame self) <> OutOfFuel.
Proof.
  unfold recv_frame.
  apply bind_fuel; [apply _recv_strict_total|]. intros hb s1 _.
  destruct (negb (truthy_bytes hb)); [discriminate|].
  apply bind_fuel; [apply getitem_fuel|]. intros b1 s2 _.
  apply bind_fuel; [apply getitem_fuel|]. intros b2 s3 _.
  apply bind_fuel.
  { destruct (Z.land b2 127 =? 126); [|destruct (Z.land b2 127 =? 127)].
    - apply bind_fuel; [apply _recv_strict_total|]. intros; apply unpack_H_fuel.
    - apply bind_fuel; [apply _recv_strict_total|]. intros; apply unpack_Q_fuel.
    - discriminate. }
  intros l s4 _. apply bind_fuel.
  { destruct (truthy_int (Z.land (Z.shiftr b2 7) 1)); [apply _recv_strict_total|discriminate]. }
  intros mk s5 _. apply bind_fuel; [apply _recv_strict_total|].
  intros d s6 _. apply bind_fuel.
  { destruct (truthy_int (Z.land (Z.shiftr b2 7) 1)); [apply mask_loop_fuel|discriminate]. }
  intros; discriminate.
Qed.

(** Sending does not touch the bytes still to arrive. *)
Lemma send_pending (message : pystr) (binary : Z) (self : WebSocketProtocol) :
  fst (send message binary self) <> OutOfFuel
  /\ pending (sock (snd (send message binary self))) = pending (sock self).
Proof.
  unfold send, bind, lift.
  assert (Henc : encode_utf8 message <> OutOfFuel).
  { destruct message as [b|u]; simpl; [|discriminate].
    unfold ascii_decode. destruct (forallb _ b); discriminate. }
  destruct (encode_utf8 message) as [payload|e|]; [|split; [discriminate|reflexivity]|congruence].
  unfold try_except, _write_frame, bind, lift.
  destruct (frame_header _ _ _ _) as [hdr|e|] eqn:Hhdr.
  - destruct self as [[p rd st c] cl hr [|] en dr]; simpl.
    + split; [discriminate|reflexivity].
    + unfold sock_send; simpl. destruct c; simpl; split; (discriminate || reflexivity).
  - destruct (is_IOError e); simpl; split; (discriminate || reflexivity).
  - exfalso. revert Hhdr. unfold frame_header, pack_B, pack_H, pack_Q.
    repeat match goal with |- context [if ?c then _ else _] => destruct c end;
      discriminate.
Qed.

Lemma recv_data_loop_fuel (fuel : nat) (self : WebSocketProtocol) :
  (pending_size self < fuel)%nat ->
  fst (recv_data_loop fuel self) <> OutOfFuel.
Proof.
  revert self. induction fuel as [|fuel IH]; intros self Hfuel; [lia|].
  cbn [recv_data_loop]. apply bind_fuel; [apply recv_frame_total|].
  intros f s1 Hf.
  apply recv_frame_returns in Hf as (fin & opcode & data & got & -> & Hs1 & Hgot).
  apply only_read_size in Hs1.
  destruct (not_a_frame _); [discriminate|].
  destruct (_ || _); [discriminate|].
  destruct (opcode_is _ OPCODE_CLOSE); [discriminate|].
  destruct (opcode_is _ OPCODE_PING).
  - apply bind_fuel; [apply send_pending|].
    intros [] s2 Hs2. apply IH.
    pose proof (send_pending (PyStr data) OPCODE_PONG s1) as [_ Hp].
    unfold pong in Hs2. rewrite Hs2 in Hp. simpl in Hp.
    unfold pending_size in *. rewrite Hp. lia.
  - apply IH. lia.
Qed.

(** [recv_data] always returns or raises. *)
Lemma recv_data_total (self : WebSocketProtocol) :
  fst (recv_data self) <> OutOfFuel.
Proof. unfold recv_data. apply recv_data_loop_fuel. lia. Qed.

(** * The claims of the specification *)

(** ** Masking utility *)

(** C5: for every payload [P] and every four-byte key [K],
    [mask_or_unmask K P] returns, and applying [mask_or_unmask K] to what it
    returns gives [P] back. *)
Theorem mask_or_unmask_involution (K P : bytes) :
  length K = 4%nat ->
  exists masked,
    mask_or_unmask K P = Return masked /\ mask_or_unmask K masked = Return P.
Proof. intros HK. apply mask_or_unmask_twice. exact HK. Qed.

Lemma mask_or_unmask_involution_witness :
  length [0x37; 0xfa; 0x21; 0x3d] = 4%nat
  /\ exists masked,
       mask_or_unmask [0x37; 0xfa; 0x21; 0x3d] [72; 101; 108; 108; 111] = Return masked
       /\ mask_or_unmask [0x37; 0xfa; 0x21; 0x3d] masked = Return [72; 101; 108; 108; 111].
Proof.
  split; [reflexivity|].
  apply (mask_or_unmask_involution [0x37; 0xfa; 0x21; 0x3d] [72; 101; 108; 108; 111]).
  reflexivity.
Defined.

(** ** Frame encoder *)

(** C6: a payload of 125 bytes is framed with the one-byte length form; one
    of 126 bytes and one of 0xFFFF bytes with the code 126 and a 16-bit
    big-endian length; one of 0x10000 bytes with the code 127 and a 64-bit
    big-endian length.  The header is the same with the mask bit added when
    the connection masks, and an unmasked connection writes it followed by
    the payload. *)
Theorem length_forms_at_boundaries (mask fin : bool) (opcode : Z) (data : bytes)
    (p rd st : list bytes) (cl : bool) (hr : option bytes) (en : nat -> Z) (dr : nat) :
  0 <= opcode < 16 ->
  let mask_bit := if mask then 0x80 else 0 in
  let b0 := first_byte fin opcode in
  let writes hdr :=
    _write_frame fin opcode data (mkProtocol (mkSocket p rd st false) cl hr false en dr)
    = (Return tt,
       mkProtocol (mkSocket p rd (st ++ [hdr ++ data]) false) cl hr false en dr) in
  (len data = 125 ->
     frame_header mask fin opcode (len data) = Return [b0; 125 + mask_bit]
     /\ writes [b0; 125])
  /\ (len data = 126 ->
        frame_header mask fin opcode (len data) = Return [b0; 126 + mask_bit; 0; 126]
        /\ writes [b0; 126; 0; 126])
  /\ (len data = 0xFFFF ->
        frame_header mask fin opcode (len data) = Return [b0; 126 + mask_bit; 255; 255]
        /\ writes [b0; 126; 255; 255])
  /\ (len data = 0x10000 ->
        frame_header mask fin opcode (len data)
        = Return [b0; 127 + mask_bit; 0; 0; 0; 0; 0; 1; 0; 0]
        /\ writes [b0; 127; 0; 0; 0; 0; 0; 1; 0; 0]).
Proof.
  intros Ho mask_bit b0 writes. subst mask_bit b0 writes. cbv beta.
  split; [|split; [|split]]; intros Hlen.
  all: destruct (_write_frame_unmasked fin opcode data p rd st cl hr en dr Ho)
         as (hdr & Hhdr & Hw); [rewrite Hlen; reflexivity|].
  all: rewrite Hw; clear Hw.
  all: rewrite frame_header_unmasked in Hhdr by (rewrite ?Hlen; lia).
  all: rewrite Hlen in Hhdr; injection Hhdr as <-.
  all: split; [|reflexivity].
  all: rewrite Hlen; destruct mask;
         [rewrite frame_header_masked by lia|rewrite frame_header_unmasked by lia];
         reflexivity.
Qed.

Lemma length_forms_at_boundaries_witness :
  let run (n : Z) :=
    fst (_write_frame true OPCODE_TEXT (repeat 97 (Z.to_nat n)) (connect [] false)) in
  let wire (n : Z) :=
    take 10 (concat (sent (sock (snd
      (_write_frame true OPCODE_TEXT (repeat 97 (Z.to_nat n)) (connect [] false)))))) in
  (run 125 = Return tt /\ wire 125 = [129; 125; 97; 97; 97; 97; 97; 97; 97; 97])
  /\ (run 126 = Return tt /\ wire 126 = [129; 126; 0; 126; 97; 97; 97; 97; 97; 97])
  /\ (run 65535 = Return tt /\ wire 65535 = [129; 126; 255; 255; 97; 97; 97; 97; 97; 97])
  /\ (run 65536 = Return tt /\ wire 65536 = [129; 127; 0; 0; 0; 0; 0; 1; 0; 0]).
Proof.
  intros run wire. subst run wire. cbv beta.
  assert (Ho : 0 <= OPCODE_TEXT < 16) by (unfold OPCODE_TEXT; lia).
  pose proof (fun n => length_forms_at_boundaries false true OPCODE_TEXT
                (repeat 97 (Z.to_nat n)) [] [] [] false None (fun _ => 0) 0%nat Ho)
    as Hforms.
  cbv zeta in Hforms. unfold connect, __init__.
  split; [|split; [|split]].
  - destruct (proj1 (Hforms 125)) as [_ Hw]; [vm_compute; reflexivity|].
    rewrite Hw. split; reflexivity.
  - destruct (proj1 (proj2 (Hforms 126))) as [_ Hw]; [vm_compute; reflexivity|].
    rewrite Hw. split; reflexivity.
  - destruct (proj1 (proj2 (proj2 (Hforms 0xFFFF)))) as [_ Hw]; [vm_compute; reflexivity|].
    rewrite Hw. split; reflexivity.
  - destruct (proj2 (proj2 (proj2 (Hforms 0x10000)))) as [_ Hw]; [vm_compute; reflexivity|].
    rewrite Hw. split; reflexivity.
Defined.

(** ** Byte-exact reader *)



(** ** Dispatcher *)

(** C10: when [recv_frame] decodes a frame with fin 0, opcode 0 and an empty
    payload, [recv_data] raises [ValueError]: the test of line 91 holds of
    that frame exactly as it holds of the triple of [None]s. *)
Theorem recv_data_rejects_empty_continuation (self self1 : WebSocketProtocol) :
  recv_frame self = (Return (Some 0, Some 0, Some []), self1) ->
  recv_data self = (Raise ValueError, self1)
  /\ not_a_frame (Some 0, Some 0, Some []) = not_a_frame (None, None, None).
Proof.
  intros Hf. split; [|reflexivity].
  unfold recv_data. cbn [recv_data_loop]. unfold bind. rewrite Hf. reflexivity.
Qed.

Lemma recv_data_rejects_empty_continuation_witness :
  recv_frame (connect [[0; 0]] false)
  = (Return (Some 0, Some 0, Some []),
     mkProtocol (mkSocket [] [[0; 0]] [] false) false None false (fun _ => 0) 0)
  /\ recv_data (connect [[0; 0]] false)
     = (Raise ValueError,
        mkProtocol (mkSocket [] [[0; 0]] [] false) false None false (fun _ => 0) 0).
Proof.
  split; [reflexivity|].
  apply (recv_data_rejects_empty_continuation (connect [[0; 0]] false)).
  reflexivity.
Defined.

(** ** Ping, pong and close frames *)

(** C1: [ping] and [pong] hand their opcode to [send] in the place of
    [binary]; 0x9 and 0xa are true, so the frame written carries opcode 2
    (BINARY), first byte 0x82, not 0x89 or 0x8a.  When [recv_data] meets a
    PING frame and then a TEXT frame it writes such a BINARY frame with the
    payload of the PING, goes on, and returns the TEXT frame in the same
    call. *)
Theorem ping_pong_write_binary_frames (payload : bytes) (p rd st : list bytes)
    (cl : bool) (hr : option bytes) (en : nat -> Z) (dr : nat) :
  forallb (fun x => x <? 128) payload = true -> len payload < 126 ->
  let self := mkProtocol (mkSocket p rd st false) cl hr false en dr in
  let self' :=
    mkProtocol (mkSocket p rd (st ++ [[0x82; len payload] ++ payload]) false)
      cl hr false en dr in
  ping (PyStr payload) self = (Return tt, self')
  /\ pong (PyStr payload) self = (Return tt, self')
  /\ Z.land 0x82 0xf = OPCODE_BINARY
  /\ recv_data (connect [[0x89; 0]; [0x81; 2; 104; 105]] false)
     = (Return (Some OPCODE_TEXT, Some [104; 105]),
        mkProtocol (mkSocket [] [[0x89; 0]; [0x81; 2]; [104; 105]] [[0x82; 0]] false)
          false None false (fun _ => 0) 0).
Proof.
  intros Hascii Hlen self self'. subst self self'.
  assert (Hsend : forall binary, truthy_int binary = true ->
            send (PyStr payload) binary
              (mkProtocol (mkSocket p rd st false) cl hr false en dr)
            = (Return tt,
               mkProtocol (mkSocket p rd (st ++ [[0x82; len payload] ++ payload]) false)
                 cl hr false en dr)).
  { intros binary Hb. pose proof (len_nonneg payload).
    destruct (send_unmasked (PyStr payload) binary payload p rd st cl hr en dr)
      as (hdr & Hhdr & ->); [rewrite encode_utf8_str, Hascii; reflexivity|lia|].
    rewrite Hb, frame_header_unmasked in Hhdr by lia.
    replace (len payload <? 126) with true in Hhdr by (symmetry; apply Z.ltb_lt; lia).
    injection Hhdr as <-. reflexivity. }
  split; [apply Hsend; reflexivity|]. split; [apply Hsend; reflexivity|].
  split; reflexivity.
Qed.

Lemma ping_pong_write_binary_frames_witness :
  (forallb (fun x => x <? 128) [104; 105] = true /\ len [104; 105] < 126)
  /\ ping (PyStr [104; 105]) (connect [] false)
     = (Return tt,
        mkProtocol (mkSocket [] [] [[0x82; 2; 104; 105]] false)
          false None false (fun _ => 0) 0).
Proof.
  split; [split; reflexivity|].
  apply (ping_pong_write_binary_frames [104; 105] [] [] [] false None (fun _ => 0) 0%nat);
    reflexivity.
Defined.

(** The guard of [send_close]: a status below 0 or above 65535 raises
    [ValueError] and nothing is written. *)
Lemma send_close_out_of_range (status : Z) (reason : pystr) (self : WebSocketProtocol) :
  status < 0 \/ 65536 <= status ->
  send_close status reason self = (Raise ValueError, self).
Proof.
  intros Hs. unfold send_close.
  replace ((status <? 0) || (status >=? LENGTH_16)) with true; [reflexivity|].
  symmetry. apply orb_true_iff. change LENGTH_16 with 65536.
  destruct Hs; [left; apply Z.ltb_lt|right; apply Z.geb_le]; lia.
Qed.

(** C2: [send_close 1000 'bye'] does not write a CLOSE frame.  The packed
    status is the [str] 0x03 0xE8, [send] encodes its message with
    [encode('utf8')], and 0xE8 is not ASCII: the call raises
    [UnicodeDecodeError], which is a [ValueError] although the status is in
    range.  A status whose two bytes are ASCII, such as 257, gets through,
    and the frame then carries opcode 2 (BINARY), because [send_close] passes
    the opcode in the place of [binary].  [send_close] with status 70000 raises
    [ValueError] at the guard. *)
Theorem send_close_normal_bye (reason : pystr) (self : WebSocketProtocol)
    (p rd st : list bytes) (cl : bool) (hr : option bytes) (en : nat -> Z) (dr : nat) :
  send_close STATUS_NORMAL (PyStr [98; 121; 101]) self = (Raise UnicodeDecodeError, self)
  /\ send_close STATUS_NORMAL reason self = (Raise UnicodeDecodeError, self)
  /\ send_close 257 (PyStr [98; 121; 101])
       (mkProtocol (mkSocket p rd st false) cl hr false en dr)
     = (Return tt,
        mkProtocol (mkSocket p rd (st ++ [[0x82; 5; 1; 1; 98; 121; 101]]) false)
          cl hr false en dr)
  /\ send_close 70000 (PyStr []) self = (Raise ValueError, self).
Proof. repeat split. destruct reason; reflexivity. Qed.

(** ** Text and binary messages *)

(** [send] on text: the frame carries the UTF-8 bytes of the code points,
    with opcode 1 when [binary] is false. *)
Lemma send_text_utf8 (u : list Z) (p rd st : list bytes)
    (cl : bool) (hr : option bytes) (en : nat -> Z) (dr : nat) :
  len (utf8_encode u) < 2 ^ 64 ->
  exists hdr,
    frame_header false true OPCODE_TEXT (len (utf8_encode u)) = Return hdr
    /\ send (PyUnicode u) 0 (mkProtocol (mkSocket p rd st false) cl hr false en dr)
       = (Return tt,
          mkProtocol (mkSocket p rd (st ++ [hdr ++ utf8_encode u]) false)
            cl hr false en dr).
Proof. intros Hl. apply (send_unmasked (PyUnicode u) 0); [reflexivity|exact Hl]. Qed.

(** C3: [send] calls [message.encode('utf8')] whatever [binary] is.  Text
    sent with [binary] false goes out as its UTF-8 bytes in a frame of opcode
    1.  With [binary] true the same encoding is applied: a byte string with a
    byte of 0x80 or more raises [UnicodeDecodeError] and nothing is written,
    and only an all-ASCII byte string goes out unchanged. *)
Theorem send_encodes_binary_too (b : bytes) (u : list Z) (self : WebSocketProtocol)
    (p rd st : list bytes) (cl : bool) (hr : option bytes) (en : nat -> Z) (dr : nat) :
  let conn := mkProtocol (mkSocket p rd st false) cl hr false en dr in
  let wrote frame :=
    mkProtocol (mkSocket p rd (st ++ [frame]) false) cl hr false en dr in
  (forallb (fun x => x <? 128) b = false ->
     send (PyStr b) 1 self = (Raise UnicodeDecodeError, self))
  /\ (forallb (fun x => x <? 128) b = true -> len b < 126 ->
        send (PyStr b) 1 conn = (Return tt, wrote ([0x82; len b] ++ b)))
  /\ (len (utf8_encode u) < 126 ->
        send (PyUnicode u) 0 conn
        = (Return tt, wrote ([0x81; len (utf8_encode u)] ++ utf8_encode u))).
Proof.
  intros conn wrote. subst conn wrote. cbv beta.
  split; [|split].
  - intros Hb. unfold send, bind, lift. rewrite encode_utf8_str, Hb. reflexivity.
  - intros Hb Hl. pose proof (len_nonneg b).
    destruct (send_unmasked (PyStr b) 1 b p rd st cl hr en dr)
      as (hdr & Hhdr & ->); [rewrite encode_utf8_str, Hb; reflexivity|lia|].
    cbn [truthy_int Z.eqb negb] in Hhdr. rewrite frame_header_unmasked in Hhdr by lia.
    replace (len b <? 126) with true in Hhdr by (symmetry; apply Z.ltb_lt; lia).
    injection Hhdr as <-. reflexivity.
  - intros Hl. pose proof (len_nonneg (utf8_encode u)).
    destruct (send_unmasked (PyUnicode u) 0 (utf8_encode u) p rd st cl hr en dr)
      as (hdr & Hhdr & ->); [reflexivity|lia|].
    cbn [truthy_int Z.eqb negb] in Hhdr. rewrite frame_header_unmasked in Hhdr by lia.
    replace (len (utf8_encode u) <? 126) with true in Hhdr
      by (symmetry; apply Z.ltb_lt; lia).
    injection Hhdr as <-. reflexivity.
Qed.

Lemma send_encodes_binary_too_witness :
  forallb (fun x => x <? 128) [0xff; 0xd8] = false
  /\ send (PyStr [0xff; 0xd8]) 1 (connect [] false)
     = (Raise UnicodeDecodeError, connect [] false)
  /\ send (PyStr [104; 105]) 1 (connect [] false)
     = (Return tt,
        mkProtocol (mkSocket [] [] [[0x82; 2; 104; 105]] false)
          false None false (fun _ => 0) 0)
  /\ send (PyUnicode [0xe9]) 0 (connect [] false)
     = (Return tt,
        mkProtocol (mkSocket [] [] [[0x81; 2; 0xc3; 0xa9]] false)
          false None false (fun _ => 0) 0).
Proof.
  split; [reflexivity|].
  split; [|split].
  - apply (proj1 (send_encodes_binary_too [0xff; 0xd8] [] (connect [] false)
                    [] [] [] false None (fun _ => 0) 0%nat)).
    reflexivity.
  - apply (proj1 (proj2 (send_encodes_binary_too [104; 105] [] (connect [] false)
                    [] [] [] false None (fun _ => 0) 0%nat))); reflexivity.
  - apply (proj2 (proj2 (send_encodes_binary_too [] [0xe9] (connect [] false)
                    [] [] [] false None (fun _ => 0) 0%nat))); reflexivity.
Defined.

(** ** Encoding and decoding *)

(** Without masking, what [_write_frame] writes is decoded by [recv_frame]
    into the same fin bit, opcode and payload, for a payload of a size that
    [recv] takes. *)
Lemma unmasked_frame_roundtrip (fin : bool) (opcode : Z) (data : bytes)
    (p rd st : list bytes) (cl : bool) (hr : option bytes) (en : nat -> Z) (dr : nat) :
  0 <= opcode < 16 -> len data < 2 ^ 31 ->
  exists wire,
    _write_frame fin opcode data (mkProtocol (mkSocket p rd st false) cl hr false en dr)
    = (Return tt, mkProtocol (mkSocket p rd (st ++ [wire]) false) cl hr false en dr)
    /\ forall (rest rd' st' : list bytes) (cl' : bool) (hr' : option bytes)
              (mo' : bool) (en' : nat -> Z) (dr' : nat),
         exists rd'',
           recv_frame
             (mkProtocol (mkSocket (wire :: rest) rd' st' false) cl' hr' mo' en' dr')
           = (Return (Some (fin_bit fin), Some opcode, Some data),
              mkProtocol (mkSocket rest rd'' st' false) cl' hr' mo' en' dr').
Proof.
  intros Ho Hl.
  destruct (_write_frame_unmasked fin opcode data p rd st cl hr en dr Ho ltac:(lia))
    as (hdr & Hhdr & Hw).
  exists (hdr ++ data). split; [exact Hw|].
  intros. apply recv_frame_unmasked; assumption.
Qed.

(** C4: without masking, decoding what the encoder wrote gives back fin,
    opcode and payload, for payloads of fewer than 2^31 bytes, the sizes
    [recv] takes.  With [mask_outgoing] set the encoder writes nothing: it
    draws a key and raises [AttributeError], for the class has no method
    [_apply_mask]; so there is no masked frame of its making to decode.  A
    frame of fewer than 2^31 bytes masked the way the wire format says is
    decoded to its payload. *)
Theorem frame_roundtrip (fin : bool) (opcode : Z) (data key : bytes)
    (s : socket) (p rd st : list bytes) (cl : bool) (hr : option bytes)
    (en : nat -> Z) (dr : nat) :
  0 <= opcode < 16 -> len data < 2 ^ 64 -> length key = 4%nat ->
  (len data < 2 ^ 31 ->
   exists wire,
     _write_frame fin opcode data (mkProtocol (mkSocket p rd st false) cl hr false en dr)
     = (Return tt, mkProtocol (mkSocket p rd (st ++ [wire]) false) cl hr false en dr)
     /\ exists rd',
          recv_frame (mkProtocol (mkSocket [wire] [] [] false) cl hr false en dr)
          = (Return (Some (fin_bit fin), Some opcode, Some data),
             mkProtocol (mkSocket [] rd' [] false) cl hr false en dr))
  /\ _write_frame fin opcode data (mkProtocol s cl hr true en dr)
     = (Raise (AttributeError "_apply_mask"), mkProtocol s cl hr true en (dr + 4))
  /\ (len data < 2 ^ 31 ->
      exists hdr masked rd',
        frame_header true fin opcode (len data) = Return hdr
        /\ mask_or_unmask key data = Return masked
        /\ recv_frame
             (mkProtocol (mkSocket [hdr ++ key ++ masked] [] [] false) cl hr false en dr)
           = (Return (Some (fin_bit fin), Some opcode, Some data),
              mkProtocol (mkSocket [] rd' [] false) cl hr false en dr)).
Proof.
  intros Ho Hl Hkey. split; [|split].
  - intros Hsize.
    destruct (unmasked_frame_roundtrip fin opcode data p rd st cl hr en dr Ho Hsize)
      as (wire & Hw & Hr).
    exists wire. split; [exact Hw|]. apply Hr.
  - apply _write_frame_masked; assumption.
  - intros Hsize. pose proof (len_nonneg data).
    destruct (mask_or_unmask_twice key Hkey data) as (masked & Hm & _).
    eexists _, masked.
    destruct (recv_frame_masked fin opcode data key masked [] [] [] cl hr false en dr _
                Ho Hsize Hkey (frame_header_masked fin opcode (len data) Ho ltac:(lia)) Hm)
      as (rd' & Hr).
    exists rd'. split; [apply frame_header_masked; lia|]. split; [exact Hm|exact Hr].
Qed.

Lemma frame_roundtrip_witness :
  (0 <= OPCODE_TEXT < 16 /\ len [104; 105] < 2 ^ 64 /\ length [1; 2; 3; 4] = 4%nat
   /\ len [104; 105] < 2 ^ 31)
  /\ _write_frame true OPCODE_TEXT [104; 105] (connect [] true)
     = (Raise (AttributeError "_apply_mask"),
        mkProtocol (mkSocket [] [] [] false) false None true (fun _ => 0) 4)
  /\ (exists wire,
        _write_frame true OPCODE_TEXT [104; 105] (connect [] false)
        = (Return tt,
           mkProtocol (mkSocket [] [] ([] ++ [wire]) false) false None false
             (fun _ => 0) 0)
        /\ exists rd',
             recv_frame (mkProtocol (mkSocket [wire] [] [] false) false None false
                           (fun _ => 0) 0)
             = (Return (Some (fin_bit true), Some OPCODE_TEXT, Some [104; 105]),
                mkProtocol (mkSocket [] rd' [] false) false None false (fun _ => 0) 0)).
Proof.
  split; [repeat split; vm_compute; congruence|].
  pose proof (frame_roundtrip true OPCODE_TEXT [104; 105] [1; 2; 3; 4]
                (mkSocket [] [] [] false) [] [] [] false None (fun _ => 0) 0%nat
                ltac:(unfold OPCODE_TEXT; lia) eq_refl eq_refl)
    as (Hplain & Hmasked & _).
  split; [exact Hmasked|]. apply Hplain. reflexivity.
Defined.

(** ** Reads in more than one piece *)

(** C7 holds when the first [recv] gets all [n] bytes ([_recv_strict_segment])
    and whenever the call returns ([_recv_strict_returns]), but the call does
    not always return: every [recv] of the loop asks for [bufsize] bytes, not
    for the bytes still missing.  When [_recv_strict 2] first gets one byte
    and the next segment holds two or more, the second [recv] takes two, three
    bytes are gathered, [remaining] is -1 and never 0 again, and the loop
    reads the stream to its end and raises: the stream held the bytes asked
    for, none is returned, and bytes beyond them are consumed. *)
Theorem _recv_strict_reads_too_much (a b c : Z) (seg : bytes) (rest rd st : list bytes)
    (cl : bool) (hr : option bytes) (mo : bool) (en : nat -> Z) (dr : nat) :
  (exists self' chunks,
     _recv_strict 2
       (mkProtocol (mkSocket ([a] :: (b :: c :: seg) :: rest) rd st false) cl hr mo en dr)
     = (Raise (socket_error socket_closed), self')
     /\ reads (sock self') = (rd ++ [[a]; [b; c]]) ++ chunks ++ [[]])
  /\ _recv_strict 2 (mkProtocol (mkSocket [[a]; [b; c]] rd st false) cl hr mo en dr)
     = (Raise (socket_error socket_closed),
        mkProtocol (mkSocket [] (rd ++ [[a]; [b; c]; []]) st false) cl hr mo en dr).
Proof.
  split.
  - pose (s2 := mkProtocol
                  (mkSocket (requeue seg rest) ((rd ++ [[a]]) ++ [[b; c]]) st false)
                  cl hr mo en dr).
    assert (Hsteps :
      _recv_strict 2
        (mkProtocol (mkSocket ([a] :: (b :: c :: seg) :: rest) rd st false) cl hr mo en dr)
      = _recv_strict_loop (S (S (length (seg ++ concat rest)))) 2
          (2 - len [a; b; c]) [a; b; c] s2) by reflexivity.
    rewrite Hsteps.
    destruct (_recv_strict_loop_never_full (S (S (length (seg ++ concat rest)))) 2
                [a; b; c] s2) as (self' & chunks & Hrun & Hreads & _).
    + lia.
    + reflexivity.
    + left. reflexivity.
    + unfold pending_size, s2. cbn [sock pending]. rewrite concat_requeue. lia.
    + exists self', chunks. split; [exact Hrun|].
      rewrite Hreads. unfold s2. cbn [sock reads]. rewrite <- (app_assoc rd). reflexivity.
  - replace (rd ++ [[a]; [b; c]; []]) with (((rd ++ [[a]]) ++ [[b; c]]) ++ [[]])
      by (rewrite <- !app_assoc; reflexivity).
    reflexivity.
Qed.

(** ** End of stream in the decoder *)

(** C9: [recv_frame] has a branch that returns three [None]s when no header
    byte came, but [_recv_strict 2] never returns an empty string: on a stream
    that has ended it raises [socket.error('socket closed')], with no byte
    delivered just as with one.  A frame that [recv_frame] returns is never
    the triple of [None]s. *)
Theorem recv_frame_end_of_stream (self self' : WebSocketProtocol) (f : frame)
    (rd st : list bytes) (cl : bool) (hr : option bytes) (mo : bool)
    (en : nat -> Z) (dr : nat) :
  recv_frame (mkProtocol (mkSocket [] rd st false) cl hr mo en dr)
  = (Raise (socket_error socket_closed),
     mkProtocol (mkSocket [] (rd ++ [[]]) st false) cl hr mo en dr)
  /\ (sock_closed (sock self) = false -> (pending_size self < 2)%nat ->
        exists s1, recv_frame self = (Raise (socket_error socket_closed), s1))
  /\ (recv_frame self = (Return f, self') -> f <> (None, None, None)).
Proof.
  split; [reflexivity|]. split.
  - intros Hopen Hshort.
    destruct (_recv_strict_short 2 self ltac:(lia) Hopen ltac:(lia))
      as (s1 & chunks & Hrun & _).
    exists s1. unfold recv_frame, bind. rewrite Hrun. reflexivity.
  - intros Hf. apply recv_frame_returns in Hf as (fin & opcode & data & got & -> & _).
    discriminate.
Qed.

Lemma recv_frame_end_of_stream_witness :
  (sock_closed (sock (connect [[0x81]] false)) = false
   /\ Nat.lt (pending_size (connect [[0x81]] false)) 2)
  /\ (exists s1,
        recv_frame (connect [[0x81]] false) = (Raise (socket_error socket_closed), s1))
  /\ (recv_frame (connect [[0x81; 0]] false)
      = (Return (Some 1, Some 1, Some []),
         mkProtocol (mkSocket [] [[0x81; 0]] [] false) false None false (fun _ => 0) 0)
      /\ (Some 1, Some 1, Some []) <> (None, None, @None bytes)).
Proof.
  split; [split; [reflexivity|vm_compute; lia]|]. split.
  - apply (proj1 (proj2 (recv_frame_end_of_stream (connect [[0x81]] false)
                           (connect [] false) (None, None, None)
                           [] [] false None false (fun _ => 0) 0%nat)));
      [reflexivity|vm_compute; lia].
  - split; [reflexivity|].
    apply (proj2 (proj2 (recv_frame_end_of_stream (connect [[0x81; 0]] false)
                           (mkProtocol (mkSocket [] [[0x81; 0]] [] false)
                              false None false (fun _ => 0) 0)
                           (Some 1, Some 1, Some [])
                           [] [] false None false (fun _ => 0) 0%nat))).
    reflexivity.
Defined.

(** * Further properties of the code *)

(** ** The byte-exact reader, [_recv_strict] *)

(** When every segment that carries the bytes asked for carries nothing
    else, the loop takes them segment by segment. *)
Lemma _recv_strict_loop_aligned (chunks rest : list bytes) (st : list bytes)
    (cl : bool) (hr : option bytes) (mo : bool) (en : nat -> Z) (dr : nat) :
  Forall (fun c => c <> []) chunks ->
  forall (fuel : nat) (bufsize : Z) (acc : bytes) (rd : list bytes),
    (length chunks <= fuel)%nat ->
    bufsize = len acc + len (concat chunks) -> bufsize < 2 ^ 31 ->
    _recv_strict_loop fuel bufsize (bufsize - len acc) acc
      (mkProtocol (mkSocket (chunks ++ rest) rd st false) cl hr mo en dr)
    = (Return (acc ++ concat chunks),
       mkProtocol (mkSocket rest (rd ++ chunks) st false) cl hr mo en dr).
Proof.
  induction 1 as [|c chunks Hc _ IH]; intros fuel bufsize acc rd Hfuel Hsize Hint.
  - replace (bufsize - len acc) with 0 by (unfold len in *; simpl in *; lia).
    rewrite _recv_strict_loop_done. simpl. rewrite !app_nil_r. reflexivity.
  - destruct fuel as [|fuel]; [simpl in Hfuel; lia|].
    assert (Hlen : (0 < length c)%nat) by (destruct c; [congruence|simpl; lia]).
    assert (Hcat : len (concat (c :: chunks)) = len c + len (concat chunks))
      by (unfold len; simpl; rewrite length_app; lia).
    pose proof (len_nonneg (concat chunks)) as Hpos. pose proof (len_nonneg acc) as Hacc.
    cbn [_recv_strict_loop].
    replace (truthy_int (bufsize - len acc)) with true
      by (symmetry; apply truthy_int_true; unfold len in *; lia).
    unfold bind at 1. cbn [app].
    rewrite sock_recv_head by (unfold len in *; lia).
    rewrite take_ge, drop_ge by (unfold len in *; lia).
    cbn [requeue]. destruct c as [|x c]; [congruence|]. cbn [truthy_bytes negb].
    rewrite (IH fuel bufsize (acc ++ x :: c) (rd ++ [x :: c])).
    + simpl. rewrite <- !app_assoc. reflexivity.
    + simpl in Hfuel. lia.
    + unfold len in *. rewrite length_app. lia.
    + exact Hint.
Qed.

(** X1: when [_recv_strict n] returns, it returns exactly [n] bytes; they are
    the bytes that have left the head of the stream, in order, and nothing
    beyond them has been taken; what was sent, the two closed flags and the
    other attributes are as before. *)
Theorem _recv_strict_returns_prefix (n : Z) (b : bytes) (self self' : WebSocketProtocol) :
  _recv_strict n self = (Return b, self') ->
  len b = n
  /\ concat (pending (sock self)) = b ++ concat (pending (sock self'))
  /\ sent (sock self') = sent (sock self)
  /\ sock_closed (sock self') = sock_closed (sock self)
  /\ closed self' = closed self
  /\ mask_outgoing self' = mask_outgoing self.
Proof.
  intros Hrun. apply _recv_strict_returns in Hrun as (Hlen & Hp & Hs & Hc & Hcl & _ & Hm & _).
  repeat split; assumption.
Qed.

Lemma _recv_strict_returns_prefix_witness :
  _recv_strict 2 (connect [[1; 2; 3]; [4]] false)
  = (Return [1; 2],
     mkProtocol (mkSocket [[3]; [4]] [[1; 2]] [] false) false None false (fun _ => 0) 0)
  /\ len [1; 2] = 2
  /\ concat [[1; 2; 3]; [4]] = [1; 2] ++ concat [[3]; [4]].
Proof.
  split; [reflexivity|].
  pose proof (_recv_strict_returns_prefix 2 [1; 2] (connect [[1; 2; 3]; [4]] false)
                (mkProtocol (mkSocket [[3]; [4]] [[1; 2]] [] false)
                   false None false (fun _ => 0) 0) eq_refl) as (H1 & H2 & _).
  split; [exact H1|exact H2].
Defined.

(** X2: when the bytes asked for, fewer than 2^31, arrive in segments that
    hold nothing else, however many, [_recv_strict] returns them joined, with
    one [recv] per segment, and the rest of the stream is left in place. *)
Theorem _recv_strict_aligned (chunks rest rd st : list bytes)
    (cl : bool) (hr : option bytes) (mo : bool) (en : nat -> Z) (dr : nat) :
  Forall (fun c => c <> []) chunks ->
  len (concat chunks) < 2 ^ 31 ->
  _recv_strict (len (concat chunks))
    (mkProtocol (mkSocket (chunks ++ rest) rd st false) cl hr mo en dr)
  = (Return (concat chunks),
     mkProtocol (mkSocket rest (rd ++ chunks) st false) cl hr mo en dr).
Proof.
  intros Hne Hint. rewrite _recv_strict_unfold.
  apply (_recv_strict_loop_aligned chunks rest st cl hr mo en dr Hne);
    [|reflexivity|exact Hint].
  unfold pending_size. cbn [sock pending]. rewrite concat_app, length_app.
  clear -Hne. induction Hne as [|c chunks Hc _ IH]; simpl; [lia|].
  rewrite length_app. destruct c; [congruence|]. simpl. lia.
Qed.

Lemma _recv_strict_aligned_witness :
  Forall (fun c : bytes => c <> []) [[1]; [2; 3]]
  /\ len (concat [[1]; [2; 3]]) < 2 ^ 31
  /\ _recv_strict 3 (connect [[1]; [2; 3]; [4; 5]] false)
     = (Return [1; 2; 3],
        mkProtocol (mkSocket [[4; 5]] [[1]; [2; 3]] [] false)
          false None false (fun _ => 0) 0).
Proof.
  assert (H : Forall (fun c : bytes => c <> []) [[1]; [2; 3]])
    by (repeat constructor; discriminate).
  assert (H31 : len (concat [[1]; [2; 3]]) < 2 ^ 31) by reflexivity.
  split; [exact H|]. split; [exact H31|].
  apply (_recv_strict_aligned [[1]; [2; 3]] [[4; 5]] [] [] false None false
           (fun _ => 0) 0%nat H H31).
Defined.

(** X3: on an open socket, for a size from 0 to 2^31 - 1, [_recv_strict]
    comes to an end on every stream and either returns or raises
    [socket.error('socket closed')]; it raises no other exception.  A size of
    2^31 or more makes the first [recv] raise [OverflowError], and a negative
    size that fits a C [int] makes it raise [ValueError]; in both cases
    nothing is read. *)
Theorem _recv_strict_only_closed (n : Z) (self : WebSocketProtocol) :
  sock_closed (sock self) = false ->
  (0 <= n < 2 ^ 31 ->
     (exists b self', _recv_strict n self = (Return b, self'))
     \/ (exists self', _recv_strict n self = (Raise (socket_error socket_closed), self')))
  /\ (2 ^ 31 <= n -> _recv_strict n self = (Raise OverflowError, self))
  /\ (- 2 ^ 31 <= n < 0 -> _recv_strict n self = (Raise ValueError, self)).
Proof.
  intros Hopen. split; [|split].
  - intros Hsize. pose proof (_recv_strict_open n self Hsize Hopen) as H.
    unfold returns_or_closed in H.
    destruct (_recv_strict n self) as [[b|e|] s]; simpl in H.
    + left. eauto.
    + right. subst e. eauto.
    + destruct H.
  - intros Hsize. unfold _recv_strict. cbn [_recv_strict_loop].
    replace (truthy_int n) with true by (symmetry; apply truthy_int_true; lia).
    unfold bind, sock_recv, in_range. rewrite Hopen.
    replace (n <? 2 ^ 31) with false by (symmetry; apply Z.ltb_ge; lia).
    rewrite andb_false_r. reflexivity.
  - intros Hsize. unfold _recv_strict. cbn [_recv_strict_loop].
    replace (truthy_int n) with true by (symmetry; apply truthy_int_true; lia).
    unfold bind, sock_recv, in_range. rewrite Hopen.
    replace (- 2 ^ 31 <=? n) with true by (symmetry; apply Z.leb_le; lia).
    replace (n <? 2 ^ 31) with true by (symmetry; apply Z.ltb_lt; lia).
    replace (n <? 0) with true by (symmetry; apply Z.ltb_lt; lia).
    reflexivity.
Qed.

Lemma _recv_strict_only_closed_witness :
  sock_closed (sock (connect [[1]; [2; 3]] false)) = false
  /\ (0 <= 2 < 2 ^ 31
      /\ ((exists b self', _recv_strict 2 (connect [[1]; [2; 3]] false) = (Return b, self'))
          \/ (exists self', _recv_strict 2 (connect [[1]; [2; 3]] false)
                            = (Raise (socket_error socket_closed), self'))))
  /\ (2 ^ 31 <= 2 ^ 31
      /\ _recv_strict (2 ^ 31) (connect [[1]; [2; 3]] false)
         = (Raise OverflowError, connect [[1]; [2; 3]] false))
  /\ (- 2 ^ 31 <= - 1 < 0
      /\ _recv_strict (- 1) (connect [[1]; [2; 3]] false)
         = (Raise ValueError, connect [[1]; [2; 3]] false)).
Proof.
  pose proof (fun n => _recv_strict_only_closed n (connect [[1]; [2; 3]] false) eq_refl)
    as H.
  split; [reflexivity|].
  assert (H1 : 0 <= 2 < 2 ^ 31) by lia.
  assert (H2 : 2 ^ 31 <= 2 ^ 31) by lia.
  assert (H3 : - 2 ^ 31 <= - 1 < 0) by lia.
  split; [split; [exact H1|exact (proj1 (H 2) H1)]|].
  split; [split; [exact H2|exact (proj1 (proj2 (H (2 ^ 31))) H2)]|].
  split; [exact H3|exact (proj2 (proj2 (H (- 1))) H3)].
Defined.

(** ** The masking utility, [mask_or_unmask] *)

(** [mask_loop] looks at the key through its first four positions only. *)
Lemma mask_loop_key_ext (m1 m2 : bytes) (indices : list nat) (d : bytes) :
  (forall j, (j < 4)%nat -> m1 !! j = m2 !! j) ->
  mask_loop m1 indices d = mask_loop m2 indices d.
Proof.
  intros Hext. revert d. induction indices as [|i indices IH]; intros d; [reflexivity|].
  cbn [mask_loop]. rewrite (Hext (i mod 4)%nat) by (apply Nat.mod_upper_bound; lia).
  destruct (d !! i); [|reflexivity]. destruct (m2 !! (i mod 4)%nat); [apply IH|reflexivity].
Qed.

(** With a key of fewer than four bytes the loop raises when it comes to the
    first index the key does not have. *)
Lemma mask_loop_short_key (m : bytes) (n a : nat) (d : bytes) :
  (length m < 4)%nat -> (a <= length m)%nat -> (length m < a + n)%nat ->
  (length m < length d)%nat ->
  mask_loop m (seq a n) d = Raise IndexError.
Proof.
  intros Hm. revert a d. induction n as [|n IH]; intros a d Ha Hn Hd; [lia|].
  cbn [seq mask_loop].
  destruct (lookup_lt_is_Some_2 d a ltac:(lia)) as [x ->].
  rewrite Nat.mod_small by lia.
  destruct (decide (a = length m)) as [->|Hne].
  - rewrite (proj2 (lookup_ge_None m (length m))) by lia. reflexivity.
  - destruct (lookup_lt_is_Some_2 m a ltac:(lia)) as [k ->].
    apply IH; [lia|lia|rewrite length_insert; exact Hd].
Qed.

(** X4: with a four-byte key [mask_or_unmask] returns a string of the same
    length whose byte [i] is byte [i] of the data xored with byte [i mod 4] of
    the key. *)
Theorem mask_or_unmask_bytewise (mask_key data : bytes) :
  length mask_key = 4%nat ->
  exists masked,
    mask_or_unmask mask_key data = Return masked
    /\ length masked = length data
    /\ forall i x, data !! i = Some x ->
         masked !! i = Some (Z.lxor x (nth (i mod 4) mask_key 0)).
Proof.
  intros Hkey. eexists. split; [apply mask_or_unmask_spec; exact Hkey|].
  split; [apply length_imap|].
  intros i x Hi. rewrite list_lookup_imap, Hi. reflexivity.
Qed.

Lemma mask_or_unmask_bytewise_witness :
  length [1; 2; 3; 4] = 4%nat
  /\ exists masked,
       mask_or_unmask [1; 2; 3; 4] [16; 16; 16; 16; 16] = Return masked
       /\ length masked = length [16; 16; 16; 16; 16]
       /\ forall i x, [16; 16; 16; 16; 16] !! i = Some x ->
            masked !! i = Some (Z.lxor x (nth (i mod 4) [1; 2; 3; 4] 0)).
Proof.
  split; [reflexivity|].
  apply (mask_or_unmask_bytewise [1; 2; 3; 4] [16; 16; 16; 16; 16]). reflexivity.
Defined.

(** X5: the key is not checked to be four bytes long.  A longer key is used
    through its first four bytes; a shorter one raises [IndexError] as soon
    as the data is longer than the key, and is used as it is on data that is
    not. *)
Theorem mask_or_unmask_key_length (mask_key data : bytes) :
  ((4 <= length mask_key)%nat ->
     mask_or_unmask mask_key data = mask_or_unmask (take 4 mask_key) data)
  /\ ((length mask_key < 4)%nat -> (length mask_key < length data)%nat ->
        mask_or_unmask mask_key data = Raise IndexError)
  /\ ((length mask_key < 4)%nat -> (length data <= length mask_key)%nat ->
        exists masked,
          mask_or_unmask mask_key data = Return masked
          /\ length masked = length data).
Proof.
  split; [|split].
  - intros Hk. apply mask_loop_key_ext. intros j Hj.
    rewrite lookup_take_lt by lia. reflexivity.
  - intros Hk Hd. apply mask_loop_short_key; lia.
  - intros Hk Hd.
    assert (Hpad : mask_or_unmask mask_key data
                   = mask_or_unmask (take 4 (mask_key ++ [0; 0; 0; 0])) data).
    { unfold mask_or_unmask.
      assert (Hin : forall i, In i (seq 0 (length data)) -> (i < length mask_key)%nat)
        by (intros i Hi%in_seq; lia).
      revert Hin. generalize (seq 0 (length data)). intros indices.
      generalize data as d.
      induction indices as [|i indices IH]; intros d Hin; [reflexivity|].
      cbn [mask_loop].
      assert (Hi : (i < length mask_key)%nat) by (apply Hin; left; reflexivity).
      rewrite Nat.mod_small by lia.
      rewrite lookup_take_lt, lookup_app_l by lia.
      destruct (d !! i); [|reflexivity]. destruct (mask_key !! i); [|reflexivity].
      apply IH. intros j Hj. apply Hin. right. exact Hj. }
    rewrite Hpad, mask_or_unmask_spec
      by (rewrite length_take, length_app; cbn [length]; lia).
    eexists. split; [reflexivity|apply length_imap].
Qed.

Lemma mask_or_unmask_key_length_witness :
  ((4 <= length [1; 2; 3; 4; 5; 6])%nat
   /\ mask_or_unmask [1; 2; 3; 4; 5; 6] [0; 0; 0; 0; 0] = Return [1; 2; 3; 4; 1])
  /\ ((length [1; 2] < 4)%nat /\ (length [1; 2] < length [0; 0; 0])%nat
      /\ mask_or_unmask [1; 2] [0; 0; 0] = Raise IndexError)
  /\ ((length [1; 2] < 4)%nat /\ (length [7; 7] <= length [1; 2])%nat
      /\ exists masked,
           mask_or_unmask [1; 2] [7; 7] = Return masked
           /\ length masked = length [7; 7]).
Proof.
  split; [|split].
  - assert (H : (4 <= length [1; 2; 3; 4; 5; 6])%nat) by (simpl; lia).
    split; [exact H|].
    rewrite (proj1 (mask_or_unmask_key_length [1; 2; 3; 4; 5; 6] [0; 0; 0; 0; 0]) H).
    reflexivity.
  - assert (H1 : (length [1; 2] < 4)%nat) by (simpl; lia).
    assert (H2 : (length [1; 2] < length [0; 0; 0])%nat) by (simpl; lia).
    split; [exact H1|]. split; [exact H2|].
    exact (proj1 (proj2 (mask_or_unmask_key_length [1; 2] [0; 0; 0])) H1 H2).
  - assert (H1 : (length [1; 2] < 4)%nat) by (simpl; lia).
    assert (H2 : (length [7; 7] <= length [1; 2])%nat) by (simpl; lia).
    split; [exact H1|]. split; [exact H2|].
    exact (proj2 (proj2 (mask_or_unmask_key_length [1; 2] [7; 7])) H1 H2).
Defined.

(** ** The frame decoder, [recv_frame] *)

(** The frame [recv_frame] returns, with the two header bytes it came from. *)
Lemma recv_frame_returns_header (self self' : WebSocketProtocol) (f : frame) :
  recv_frame self = (Return f, self') ->
  exists b1 b2 data got,
    f = (Some (Z.land (Z.shiftr b1 7) 1), Some (Z.land b1 0xf), Some data)
    /\ only_read self self' (b1 :: b2 :: got).
Proof.
  unfold recv_frame. intros H.
  apply bind_Return in H as (hb & s1 & Hhdr & H).
  apply _recv_strict_step in Hhdr as [Hs1 Hlen].
  destruct hb as [|x0 [|x1 [|x2 hb]]]; simpl in Hlen; try lia.
  cbn [truthy_bytes negb] in H.
  apply bind_Return in H as (b1 & s2 & Hb1 & H). apply lift_Return in Hb1 as [Hb1 ->].
  injection Hb1 as <-.
  apply bind_Return in H as (b2 & s2 & Hb2 & H). apply lift_Return in Hb2 as [Hb2 ->].
  injection Hb2 as <-.
  apply bind_Return in H as (l & s2 & Hl & H).
  assert (exists g2, only_read s1 s2 g2) as [g2 Hs2].
  { destruct (Z.land x1 127 =? 126).
    - apply bind_Return in Hl as (ld & s & Hr & Hu). apply lift_Return in Hu as [_ ->].
      apply _recv_strict_step in Hr as [Hr _]. eauto.
    - destruct (Z.land x1 127 =? 127).
      + apply bind_Return in Hl as (ld & s & Hr & Hu). apply lift_Return in Hu as [_ ->].
        apply _recv_strict_step in Hr as [Hr _]. eauto.
      + injection Hl as _ <-. exists []. apply only_read_refl. }
  apply bind_Return in H as (mk & s3 & Hmk & H).
  assert (exists g3, only_read s2 s3 g3) as [g3 Hs3].
  { destruct (truthy_int (Z.land (Z.shiftr x1 7) 1)).
    - apply _recv_strict_step in Hmk as [Hr _]. eauto.
    - injection Hmk as _ <-. exists []. apply only_read_refl. }
  apply bind_Return in H as (d & s4 & Hd & H).
  apply _recv_strict_step in Hd as [Hs4 _].
  apply bind_Return in H as (d' & s5 & Hd' & H).
  assert (s5 = s4) as ->.
  { destruct (truthy_int (Z.land (Z.shiftr x1 7) 1)).
    - apply lift_Return in Hd' as [_ ->]. reflexivity.
    - injection Hd' as _ <-. reflexivity. }
  injection H as <- <-.
  exists x0, x1, d', ((g2 ++ g3) ++ d).
  split; [reflexivity|].
  change (x0 :: x1 :: (g2 ++ g3) ++ d) with ([x0; x1] ++ (g2 ++ g3) ++ d).
  rewrite !app_assoc.
  repeat (eapply only_read_trans; [|eassumption]). exact Hs1.
Qed.

(** X6: a frame that [recv_frame] returns has fin 0 or 1 and an opcode from 0
    to 15, whatever the bytes of the stream; its first two bytes at least have
    left the stream, and the call has written nothing and closed nothing. *)
Theorem recv_frame_fields (self self' : WebSocketProtocol) (f : frame) :
  recv_frame self = (Return f, self') ->
  exists fin opcode data,
    f = (Some fin, Some opcode, Some data)
    /\ (fin = 0 \/ fin = 1) /\ 0 <= opcode < 16
    /\ (pending_size self' + 2 <= pending_size self)%nat
    /\ sent (sock self') = sent (sock self)
    /\ sock_closed (sock self') = sock_closed (sock self)
    /\ closed self' = closed self.
Proof.
  intros H. apply recv_frame_returns_header in H as (b1 & b2 & data & got & -> & Hs).
  pose proof (only_read_size _ _ _ Hs) as Hsize. simpl in Hsize.
  destruct Hs as (_ & Hsent & Hsc & Hcl & _).
  eexists _, _, _. split; [reflexivity|].
  split.
  { assert (Hv : Z.land (Z.shiftr b1 7) 1 = Z.shiftr b1 7 mod 2)
      by (apply (Z.land_ones (Z.shiftr b1 7) 1); lia).
    pose proof (Z.mod_pos_bound (Z.shiftr b1 7) 2 ltac:(lia)). lia. }
  split.
  { change 0xf with (Z.ones 4). rewrite Z.land_ones by lia.
    apply Z.mod_pos_bound. reflexivity. }
  repeat split; (assumption || lia).
Qed.

Lemma recv_frame_fields_witness :
  recv_frame (connect [[0xf3; 1; 65]] false)
  = (Return (Some 1, Some 3, Some [65]),
     mkProtocol (mkSocket [] [[0xf3; 1]; [65]] [] false) false None false (fun _ => 0) 0)
  /\ exists fin opcode data,
       (Some 1, Some 3, Some [65]) = (Some fin, Some opcode, Some data)
       /\ (fin = 0 \/ fin = 1) /\ 0 <= opcode < 16.
Proof.
  split; [reflexivity|].
  destruct (recv_frame_fields (connect [[0xf3; 1; 65]] false)
              (mkProtocol (mkSocket [] [[0xf3; 1]; [65]] [] false)
                 false None false (fun _ => 0) 0)
              (Some 1, Some 3, Some [65]) eq_refl)
    as (fin & opcode & data & Hf & Hfin & Hop & _).
  exists fin, opcode, data. split; [exact Hf|]. split; [exact Hfin|exact Hop].
Defined.

(** An unmasked frame at the head of a segment that goes on after it. *)
Lemma recv_frame_unmasked_prefix (fin : bool) (opcode : Z) (data tail : bytes)
    (rest rd st : list bytes) (cl : bool) (hr : option bytes) (mo : bool)
    (en : nat -> Z) (dr : nat) (hdr : bytes) :
  0 <= opcode < 16 -> len data < 2 ^ 31 ->
  frame_header false fin opcode (len data) = Return hdr ->
  exists rd',
    recv_frame
      (mkProtocol (mkSocket ((hdr ++ data ++ tail) :: rest) rd st false) cl hr mo en dr)
    = (Return (Some (fin_bit fin), Some opcode, Some data),
       mkProtocol (mkSocket (requeue tail rest) rd' st false) cl hr mo en dr).
Proof.
  intros Ho Hl. rewrite frame_header_unmasked by (unfold len in *; lia).
  destruct (first_byte_decode fin opcode Ho) as (_ & Hfin & Hop).
  pose proof (_recv_strict_segment data tail rest) as Hdata.
  destruct (Z.ltb_spec (len data) 126) as [H126|H126];
    [|destruct (Z.leb_spec (len data) 0xFFFF) as [H16|H16]].
  - destruct (short_length_decode (len data) ltac:(unfold len in *; lia))
      as (_ & _ & Hm & Hlen & Hne & Hnf).
    intros [= <-]. unfold recv_frame, bind at 1.
    rewrite (_recv_strict_segment [first_byte fin opcode; len data] (data ++ tail) rest) by reflexivity.
    unfold bind, lift, getitem, ret. simpl.
    rewrite Hlen, Hne, Hnf, Hm, Hfin, Hop. simpl. rewrite Hdata by exact Hl. simpl.
    eexists. reflexivity.
  - destruct (unpack_pack_H (len data) ltac:(lia)) as [_ Hun].
    pose proof (be_bytes_length 2 (len data)) as Hext.
    revert Hun Hext. generalize (be_bytes 2 (len data)). intros ext Hun Hext [= <-].
    unfold recv_frame, bind at 1. cbn [app].
    rewrite (_recv_strict_segment [first_byte fin opcode; 126] (ext ++ data ++ tail) rest) by reflexivity.
    unfold bind, lift, getitem, ret. simpl.
    rewrite Hfin, Hop.
    rewrite (_recv_strict_segment_n 2 ext (data ++ tail))
      by (reflexivity || (unfold len; rewrite Hext; reflexivity)).
    rewrite Hun. rewrite Hdata by exact Hl. eexists. reflexivity.
  - destruct (unpack_pack_Q (len data) ltac:(unfold len in *; lia)) as [_ Hun].
    pose proof (be_bytes_length 8 (len data)) as Hext.
    revert Hun Hext. generalize (be_bytes 8 (len data)). intros ext Hun Hext [= <-].
    unfold recv_frame, bind at 1. cbn [app].
    rewrite (_recv_strict_segment [first_byte fin opcode; 127] (ext ++ data ++ tail) rest) by reflexivity.
    unfold bind, lift, getitem, ret. simpl.
    rewrite Hfin, Hop.
    rewrite (_recv_strict_segment_n 8 ext (data ++ tail))
      by (reflexivity || (unfold len; rewrite Hext; reflexivity)).
    rewrite Hun. rewrite Hdata by exact Hl. eexists. reflexivity.
Qed.

Lemma frame_header_nonempty (mask fin : bool) (opcode l : Z) (hdr : bytes) :
  frame_header mask fin opcode l = Return hdr -> exists b0 b1 more, hdr = b0 :: b1 :: more.
Proof.
  unfold frame_header, pack_B, pack_H, pack_Q.
  repeat match goal with
         | |- context [if ?c then _ else _] => destruct c
         end; try discriminate; intros [= <-]; eexists _, _, _; reflexivity.
Qed.

(** X7: two unmasked frames, with payloads of fewer than 2^31 bytes, that
    arrive joined in one segment are decoded by two calls of [recv_frame],
    each taking the bytes of its frame and no more. *)
Theorem recv_frame_two_frames (fin1 fin2 : bool) (op1 op2 : Z) (data1 data2 hdr1 hdr2 : bytes)
    (rest rd st : list bytes) (cl : bool) (hr : option bytes) (mo : bool)
    (en : nat -> Z) (dr : nat) :
  0 <= op1 < 16 -> 0 <= op2 < 16 -> len data1 < 2 ^ 31 -> len data2 < 2 ^ 31 ->
  frame_header false fin1 op1 (len data1) = Return hdr1 ->
  frame_header false fin2 op2 (len data2) = Return hdr2 ->
  exists s1 rd2,
    recv_frame
      (mkProtocol (mkSocket (((hdr1 ++ data1) ++ hdr2 ++ data2) :: rest) rd st false)
         cl hr mo en dr)
    = (Return (Some (fin_bit fin1), Some op1, Some data1), s1)
    /\ recv_frame s1
       = (Return (Some (fin_bit fin2), Some op2, Some data2),
          mkProtocol (mkSocket rest rd2 st false) cl hr mo en dr).
Proof.
  intros Ho1 Ho2 Hl1 Hl2 Hh1 Hh2.
  destruct (recv_frame_unmasked_prefix fin1 op1 data1 (hdr2 ++ data2) rest rd st
              cl hr mo en dr hdr1 Ho1 Hl1 Hh1) as (rd1 & Hr1).
  destruct (recv_frame_unmasked fin2 op2 data2 rest rd1 st cl hr mo en dr hdr2
              Ho2 Hl2 Hh2) as (rd2 & Hr2).
  eexists _, rd2. rewrite <- app_assoc. split; [exact Hr1|].
  destruct (frame_header_nonempty _ _ _ _ _ Hh2) as (b0 & b1 & more & ->).
  exact Hr2.
Qed.

Lemma recv_frame_two_frames_witness :
  exists s1 rd2,
    recv_frame (connect [[0x81; 2; 104; 105; 0x82; 1; 255]] false)
    = (Return (Some 1, Some 1, Some [104; 105]), s1)
    /\ recv_frame s1
       = (Return (Some 1, Some 2, Some [255]),
          mkProtocol (mkSocket [] rd2 [] false) false None false (fun _ => 0) 0).
Proof.
  apply (recv_frame_two_frames true true 1 2 [104; 105] [255] [0x81; 2] [0x82; 1]
           [] [] [] false None false (fun _ => 0) 0%nat);
    (lia || reflexivity).
Defined.

(** ** The dispatcher, [recv_data] *)

Lemma bind_ext {A B : Type} (m : M A) (k1 k2 : A -> M B) (self : WebSocketProtocol) :
  (forall a s, m self = (Return a, s) -> k1 a s = k2 a s) ->
  bind m k1 self = bind m k2 self.
Proof.
  intros Hk. unfold bind. destruct (m self) as [[a|e|] s]; try reflexivity.
  apply Hk. reflexivity.
Qed.

(** More budget than there are bytes pending changes nothing. *)
Lemma recv_data_loop_fuel_irrelevant (f1 f2 : nat) (self : WebSocketProtocol) :
  (pending_size self < f1)%nat -> (pending_size self < f2)%nat ->
  recv_data_loop f1 self = recv_data_loop f2 self.
Proof.
  revert f2 self. induction f1 as [|f1 IH]; intros f2 self H1 H2; [lia|].
  destruct f2 as [|f2]; [lia|]. cbn [recv_data_loop].
  apply bind_ext. intros f s1 Hf.
  apply recv_frame_returns in Hf as (fin & opcode & data & got & -> & Hs1 & Hgot).
  apply only_read_size in Hs1.
  destruct (not_a_frame _); [reflexivity|].
  destruct (_ || _); [reflexivity|].
  destruct (opcode_is _ OPCODE_CLOSE); [reflexivity|].
  destruct (opcode_is _ OPCODE_PING).
  - apply bind_ext. intros [] s2 Hs2.
    pose proof (send_pending (PyStr data) OPCODE_PONG s1) as [_ Hp].
    unfold pong in Hs2. rewrite Hs2 in Hp. simpl in Hp.
    apply IH; unfold pending_size in *; rewrite Hp; lia.
  - apply IH; lia.
Qed.

(** One turn of the loop of [recv_data], with [recv_data] itself for the
    turns that follow. *)
Lemma recv_data_step (self s1 : WebSocketProtocol) (fin opcode : Z) (data : bytes) :
  recv_frame self = (Return (Some fin, Some opcode, Some data), s1) ->
  recv_data self
  = (if not_a_frame (Some fin, Some opcode, Some data) then raise ValueError
     else if (opcode =? OPCODE_TEXT) || (opcode =? OPCODE_BINARY) then
       ret (Some opcode, Some data)
     else if opcode =? OPCODE_CLOSE then close ;;; ret (Some opcode, None)
     else if opcode =? OPCODE_PING then pong (PyStr data) ;;; recv_data
     else recv_data) s1.
Proof.
  intros Hf. unfold recv_data at 1. cbn [recv_data_loop]. unfold bind at 1. rewrite Hf.
  apply recv_frame_returns in Hf as (fin' & opcode' & data' & got & _ & Hs1 & Hgot).
  apply only_read_size in Hs1. cbn [opcode_is].
  destruct (not_a_frame _); [reflexivity|].
  destruct (_ || _); [reflexivity|].
  destruct (opcode =? OPCODE_CLOSE); [reflexivity|].
  destruct (opcode =? OPCODE_PING).
  - apply bind_ext. intros [] s2 Hs2.
    pose proof (send_pending (PyStr data) OPCODE_PONG s1) as [_ Hp].
    unfold pong in Hs2. rewrite Hs2 in Hp. simpl in Hp. unfold recv_data.
    apply recv_data_loop_fuel_irrelevant; unfold pending_size in *; rewrite ?Hp; lia.
  - unfold recv_data. apply recv_data_loop_fuel_irrelevant; lia.
Qed.

Lemma not_a_frame_opcode (fin opcode : Z) (data : bytes) :
  opcode <> 0 -> not_a_frame (Some fin, Some opcode, Some data) = false.
Proof.
  intros Ho. unfold not_a_frame, truthy_opt, truthy_int.
  rewrite (proj2 (Z.eqb_neq _ _) Ho). simpl. rewrite andb_false_r. reflexivity.
Qed.

Lemma recv_data_loop_returns (fuel : nat) (self self' : WebSocketProtocol)
    (opcode : option Z) (data : option bytes) :
  recv_data_loop fuel self = (Return (opcode, data), self') ->
  ((opcode = Some OPCODE_TEXT \/ opcode = Some OPCODE_BINARY) /\ exists d, data = Some d)
  \/ (opcode = Some OPCODE_CLOSE /\ data = None
      /\ closed self' = true /\ sock_closed (sock self') = true).
Proof.
  revert self. induction fuel as [|fuel IH]; intros self; [discriminate|].
  cbn [recv_data_loop]. intros H.
  apply bind_Return in H as (f & s1 & Hf & H).
  apply recv_frame_returns in Hf as (fin & op & d & got & -> & _).
  destruct (not_a_frame _); [discriminate|]. cbn [opcode_is] in H.
  destruct (_ || _) eqn:Hdata.
  { injection H as <- <- <-. left. split; [|eauto].
    apply orb_true_iff in Hdata as [->%Z.eqb_eq| ->%Z.eqb_eq]; [left|right]; reflexivity. }
  destruct (op =? OPCODE_CLOSE) eqn:Hclose.
  { apply Z.eqb_eq in Hclose as ->. injection H as <- <- <-. right. repeat split. }
  destruct (op =? OPCODE_PING).
  - apply bind_Return in H as ([] & s2 & _ & H). apply IH in H. exact H.
  - apply IH in H. exact H.
Qed.

(** X8: [recv_data] hands the caller TEXT, BINARY and CLOSE frames only: what
    it returns has opcode 1 or 2 and a payload, or opcode 8 and [None] for a
    payload, and in that case the connection is marked closed and the socket
    is closed.  PING, PONG and every other opcode stay inside the loop. *)
Theorem recv_data_returns_data_or_close (self self' : WebSocketProtocol)
    (opcode : option Z) (data : option bytes) :
  recv_data self = (Return (opcode, data), self') ->
  ((opcode = Some OPCODE_TEXT \/ opcode = Some OPCODE_BINARY) /\ exists d, data = Some d)
  \/ (opcode = Some OPCODE_CLOSE /\ data = None
      /\ closed self' = true /\ sock_closed (sock self') = true).
Proof. unfold recv_data. apply recv_data_loop_returns. Qed.

Lemma recv_data_returns_data_or_close_witness :
  recv_data (connect [[0x8a; 0; 0x88; 2; 3; 232]] false)
  = (Return (Some 8, None),
     mkProtocol (mkSocket [] [[0x8a; 0]; [0x88; 2]; [3; 232]] [] true)
       true None false (fun _ => 0) 0)
  /\ (((Some 8 = Some OPCODE_TEXT \/ Some 8 = Some OPCODE_BINARY)
       /\ exists d, @None bytes = Some d)
      \/ (Some 8 = Some OPCODE_CLOSE /\ @None bytes = None
          /\ closed (mkProtocol (mkSocket [] [[0x8a; 0]; [0x88; 2]; [3; 232]] [] true)
                       true None false (fun _ => 0) 0) = true
          /\ sock_closed (sock (mkProtocol
                                  (mkSocket [] [[0x8a; 0]; [0x88; 2]; [3; 232]] [] true)
                                  true None false (fun _ => 0) 0)) = true)).
Proof.
  split; [reflexivity|].
  apply (recv_data_returns_data_or_close (connect [[0x8a; 0; 0x88; 2; 3; 232]] false)).
  reflexivity.
Defined.

Lemma recv_data_on_data_frame (self s1 : WebSocketProtocol) (fin opcode : Z)
    (data : bytes) :
  recv_frame self = (Return (Some fin, Some opcode, Some data), s1) ->
  opcode = OPCODE_TEXT \/ opcode = OPCODE_BINARY ->
  recv_data self = (Return (Some opcode, Some data), s1).
Proof.
  intros Hf Hop. rewrite (recv_data_step _ _ _ _ _ Hf).
  destruct Hop as [-> | ->]; rewrite not_a_frame_opcode by discriminate; reflexivity.
Qed.

(** X9: a TEXT or BINARY frame is returned as a message whatever its fin bit
    is: a frame that is not final is not kept for the frames that continue
    it. *)
Theorem recv_data_data_frame (self s1 : WebSocketProtocol) (fin opcode : Z) (data : bytes) :
  recv_frame self = (Return (Some fin, Some opcode, Some data), s1) ->
  opcode = OPCODE_TEXT \/ opcode = OPCODE_BINARY ->
  recv_data self = (Return (Some opcode, Some data), s1)
  /\ recv self = (Return (Some data), s1).
Proof.
  intros Hf Hop. pose proof (recv_data_on_data_frame _ _ _ _ _ Hf Hop) as Hrun.
  split; [exact Hrun|]. unfold recv, bind. rewrite Hrun. reflexivity.
Qed.

Lemma recv_data_data_frame_witness :
  recv_frame (connect [[0x01; 2; 104; 105]] false)
  = (Return (Some 0, Some 1, Some [104; 105]),
     mkProtocol (mkSocket [] [[1; 2]; [104; 105]] [] false) false None false (fun _ => 0) 0)
  /\ recv_data (connect [[0x01; 2; 104; 105]] false)
     = (Return (Some 1, Some [104; 105]),
        mkProtocol (mkSocket [] [[1; 2]; [104; 105]] [] false)
          false None false (fun _ => 0) 0).
Proof.
  split; [reflexivity|].
  apply (recv_data_data_frame (connect [[0x01; 2; 104; 105]] false) _ 0 1 [104; 105]);
    [reflexivity|left; reflexivity].
Defined.

(** X10: on a CLOSE frame [recv_data] marks the connection closed, closes
    the socket and returns opcode 8 with [None]: the status and the reason of
    the frame are dropped, and no frame is written in answer. *)
Theorem recv_data_close_frame (self s1 : WebSocketProtocol) (fin : Z) (data : bytes) :
  recv_frame self = (Return (Some fin, Some OPCODE_CLOSE, Some data), s1) ->
  exists s2,
    recv_data self = (Return (Some OPCODE_CLOSE, None), s2)
    /\ closed s2 = true /\ sock_closed (sock s2) = true
    /\ sent (sock s2) = sent (sock self)
    /\ pending (sock s2) = pending (sock s1).
Proof.
  intros Hf. rewrite (recv_data_step _ _ _ _ _ Hf).
  rewrite not_a_frame_opcode by discriminate.
  apply recv_frame_returns in Hf as (_ & _ & _ & got & _ & (_ & Hsent & _) & _).
  eexists. split; [reflexivity|]. repeat split. exact Hsent.
Qed.

Lemma recv_data_close_frame_witness :
  recv_frame (connect [[0x88; 2; 3; 232]; [0x81; 0]] false)
  = (Return (Some 1, Some OPCODE_CLOSE, Some [3; 232]),
     mkProtocol (mkSocket [[0x81; 0]] [[0x88; 2]; [3; 232]] [] false)
       false None false (fun _ => 0) 0)
  /\ exists s2,
       recv_data (connect [[0x88; 2; 3; 232]; [0x81; 0]] false)
       = (Return (Some OPCODE_CLOSE, None), s2)
       /\ closed s2 = true /\ sock_closed (sock s2) = true
       /\ sent (sock s2) = []
       /\ pending (sock s2) = [[0x81; 0]].
Proof.
  split; [reflexivity|].
  apply (recv_data_close_frame (connect [[0x88; 2; 3; 232]; [0x81; 0]] false)
           (mkProtocol (mkSocket [[0x81; 0]] [[0x88; 2]; [3; 232]] [] false)
              false None false (fun _ => 0) 0) 1 [3; 232]).
  reflexivity.
Defined.

(** X11: a frame whose opcode is not TEXT, BINARY, CLOSE or PING (a PONG, a
    reserved opcode, a continuation frame that is final or has a payload) is
    dropped without a word: [recv_data] goes on as if it were called after
    the frame. *)
Theorem recv_data_skips_other_frames (self s1 : WebSocketProtocol)
    (fin opcode : Z) (data : bytes) :
  recv_frame self = (Return (Some fin, Some opcode, Some data), s1) ->
  opcode <> OPCODE_TEXT -> opcode <> OPCODE_BINARY ->
  opcode <> OPCODE_CLOSE -> opcode <> OPCODE_PING ->
  fin <> 0 \/ opcode <> 0 \/ data <> [] ->
  recv_data self = recv_data s1.
Proof.
  intros Hf H1 H2 H8 H9 Hframe. rewrite (recv_data_step _ _ _ _ _ Hf).
  replace (not_a_frame (Some fin, Some opcode, Some data)) with false.
  - rewrite (proj2 (Z.eqb_neq _ _) H1), (proj2 (Z.eqb_neq _ _) H2),
      (proj2 (Z.eqb_neq _ _) H8), (proj2 (Z.eqb_neq _ _) H9). reflexivity.
  - symmetry. destruct Hframe as [H|[H|H]].
    + unfold not_a_frame, truthy_opt, truthy_int.
      rewrite (proj2 (Z.eqb_neq _ _) H). reflexivity.
    + apply not_a_frame_opcode. exact H.
    + unfold not_a_frame, truthy_opt. destruct data; [congruence|].
      simpl. apply andb_false_r.
Qed.

Lemma recv_data_skips_other_frames_witness :
  recv_frame (connect [[0x8a; 1; 7; 0x81; 2; 104; 105]] false)
  = (Return (Some 1, Some OPCODE_PONG, Some [7]),
     mkProtocol (mkSocket [[0x81; 2; 104; 105]] [[0x8a; 1]; [7]] [] false)
       false None false (fun _ => 0) 0)
  /\ recv_data (connect [[0x8a; 1; 7; 0x81; 2; 104; 105]] false)
     = recv_data (mkProtocol (mkSocket [[0x81; 2; 104; 105]] [[0x8a; 1]; [7]] [] false)
                    false None false (fun _ => 0) 0).
Proof.
  split; [reflexivity|].
  apply (recv_data_skips_other_frames _ _ 1 OPCODE_PONG [7]);
    [reflexivity|discriminate..|left; discriminate].
Defined.

(** X12: the payload of a PING is given to [pong], which encodes it as text.
    A payload of ASCII bytes (fewer than 126 here) is written back in a frame
    and the loop goes on; a payload with a byte of 0x80 or more makes
    [recv_data] raise [UnicodeDecodeError] with nothing written, so a peer
    can end the receiving loop with one PING. *)
Theorem recv_data_ping_frame (self : WebSocketProtocol) (fin : Z) (data : bytes)
    (p rd st : list bytes) (cl : bool) (hr : option bytes) (en : nat -> Z) (dr : nat) :
  recv_frame self
  = (Return (Some fin, Some OPCODE_PING, Some data),
     mkProtocol (mkSocket p rd st false) cl hr false en dr) ->
  (forallb (fun x => x <? 128) data = true -> len data < 126 ->
     recv_data self
     = recv_data (mkProtocol (mkSocket p rd (st ++ [[0x82; len data] ++ data]) false)
                    cl hr false en dr))
  /\ (forallb (fun x => x <? 128) data = false ->
        recv_data self
        = (Raise UnicodeDecodeError,
           mkProtocol (mkSocket p rd st false) cl hr false en dr)).
Proof.
  intros Hf. rewrite (recv_data_step _ _ _ _ _ Hf).
  rewrite not_a_frame_opcode by discriminate.
  cbn [Z.eqb OPCODE_PING OPCODE_TEXT OPCODE_BINARY OPCODE_CLOSE orb Pos.eqb].
  split.
  - intros Hascii Hlen. pose proof (len_nonneg data).
    destruct (send_unmasked (PyStr data) OPCODE_PONG data p rd st cl hr en dr)
      as (hdr & Hhdr & Hsend); [rewrite encode_utf8_str, Hascii; reflexivity|lia|].
    cbn [truthy_int OPCODE_PONG Z.eqb negb] in Hhdr.
    rewrite frame_header_unmasked in Hhdr by lia.
    replace (len data <? 126) with true in Hhdr by (symmetry; apply Z.ltb_lt; lia).
    injection Hhdr as <-. unfold bind, pong. rewrite Hsend. reflexivity.
  - intros Hascii. unfold bind, pong, send, lift.
    rewrite encode_utf8_str, Hascii. reflexivity.
Qed.

Lemma recv_data_ping_frame_witness :
  recv_frame (connect [[0x89; 1; 200]] false)
  = (Return (Some 1, Some OPCODE_PING, Some [200]),
     mkProtocol (mkSocket [] [[0x89; 1]; [200]] [] false) false None false (fun _ => 0) 0)
  /\ forallb (fun x => x <? 128) [200] = false
  /\ recv_data (connect [[0x89; 1; 200]] false)
     = (Raise UnicodeDecodeError,
        mkProtocol (mkSocket [] [[0x89; 1]; [200]] [] false)
          false None false (fun _ => 0) 0).
Proof.
  split; [reflexivity|]. split; [reflexivity|].
  apply (proj2 (recv_data_ping_frame (connect [[0x89; 1; 200]] false) 1 [200]
                  [] [[0x89; 1]; [200]] [] false None (fun _ => 0) 0%nat eq_refl)).
  reflexivity.
Defined.

(** ** Sending and the life of the connection *)

Lemma send_on_closed_socket (message : pystr) (binary : Z) (payload : bytes)
    (p rd st : list bytes) (cl : bool) (hr : option bytes) (en : nat -> Z) (dr : nat) :
  encode_utf8 message = Return payload -> len payload < 2 ^ 64 ->
  send message binary (mkProtocol (mkSocket p rd st true) cl hr false en dr)
  = (Return tt, mkProtocol (mkSocket p rd st true) true hr false en dr).
Proof.
  intros Henc Hl. pose proof (len_nonneg payload).
  unfold send, bind, lift. rewrite Henc. unfold try_except, _write_frame, bind, lift.
  cbn [mask_outgoing].
  rewrite frame_header_unmasked by (destruct (truthy_int binary); lia).
  reflexivity.
Qed.

(** X13: [send] lets no [socket.error] out: when the write raises one, the
    connection is closed and the call returns.  On a socket that is already
    closed it writes nothing, marks the connection closed and returns as if
    the message were sent. *)
Theorem send_swallows_socket_errors (message : pystr) (binary : Z) (payload : bytes)
    (self : WebSocketProtocol) (why : sockerr)
    (p rd st : list bytes) (cl : bool) (hr : option bytes) (en : nat -> Z) (dr : nat) :
  fst (send message binary self) <> Raise (socket_error why)
  /\ (encode_utf8 message = Return payload -> len payload < 2 ^ 64 ->
        send message binary (mkProtocol (mkSocket p rd st true) cl hr false en dr)
        = (Return tt, mkProtocol (mkSocket p rd st true) true hr false en dr)).
Proof.
  split.
  - unfold send, bind, lift. destruct (encode_utf8 message) as [b|e|] eqn:Henc; simpl.
    + unfold try_except.
      destruct (_write_frame true _ b self) as [[[]|e|] s1]; simpl; try discriminate.
      destruct e; simpl; discriminate.
    + destruct message as [b|u]; simpl in Henc; [|discriminate].
      unfold ascii_decode in Henc. destruct (forallb _ b); [discriminate|].
      injection Henc as <-. discriminate.
    + discriminate.
  - apply send_on_closed_socket.
Qed.

Lemma send_swallows_socket_errors_witness :
  (encode_utf8 (PyStr [104; 105]) = Return [104; 105] /\ len [104; 105] < 2 ^ 64)
  /\ send (PyStr [104; 105]) 0
       (mkProtocol (mkSocket [] [] [] true) false None false (fun _ => 0) 0)
     = (Return tt, mkProtocol (mkSocket [] [] [] true) true None false (fun _ => 0) 0).
Proof.
  split; [split; reflexivity|].
  apply (proj2 (send_swallows_socket_errors (PyStr [104; 105]) 0 [104; 105]
                  (connect [] false) EBADF [] [] [] false None (fun _ => 0) 0%nat));
    reflexivity.
Defined.

(** X14: on a connection made with [mask_outgoing] true, [send], and with it
    [ping] and [pong], raise [AttributeError] for every message that can be
    encoded: the [except IOError] of [send] does not catch it, nothing is
    written and the connection is left open. *)
Theorem send_masking_raises (message : pystr) (binary : Z) (payload : bytes)
    (s : socket) (cl : bool) (hr : option bytes) (en : nat -> Z) (dr : nat) :
  encode_utf8 message = Return payload -> len payload < 2 ^ 64 ->
  let raised :=
    (Raise (AttributeError "_apply_mask"), mkProtocol s cl hr true en (dr + 4)%nat) in
  send message binary (mkProtocol s cl hr true en dr) = raised
  /\ ping message (mkProtocol s cl hr true en dr) = raised
  /\ pong message (mkProtocol s cl hr true en dr) = raised.
Proof.
  intros Henc Hl raised. subst raised.
  assert (Hsend : forall b,
            send message b (mkProtocol s cl hr true en dr)
            = (Raise (AttributeError "_apply_mask"),
               mkProtocol s cl hr true en (dr + 4)%nat)).
  { intros b. unfold send, bind, lift. rewrite Henc. unfold try_except.
    rewrite _write_frame_masked by (destruct (truthy_int b); lia || exact Hl).
    reflexivity. }
  repeat split; apply Hsend.
Qed.

Lemma send_masking_raises_witness :
  (encode_utf8 (PyUnicode [104; 105]) = Return [104; 105] /\ len [104; 105] < 2 ^ 64)
  /\ send (PyUnicode [104; 105]) 0 (connect [] true)
     = (Raise (AttributeError "_apply_mask"),
        mkProtocol (mkSocket [] [] [] false) false None true (fun _ => 0) 4).
Proof.
  split; [split; reflexivity|].
  apply (send_masking_raises (PyUnicode [104; 105]) 0 [104; 105]
           (mkSocket [] [] [] false) false None (fun _ => 0) 0%nat); reflexivity.
Defined.

(** X15: [close] marks the connection closed and closes the socket, and a
    second [close] changes nothing.  After it [recv_data] raises the
    [socket.error] of a closed descriptor without reading, and [send] on a
    connection that does not mask writes nothing and returns. *)
Theorem after_close (self : WebSocketProtocol) (message : pystr) (binary : Z)
    (payload : bytes) :
  let c := snd (close self) in
  close self = (Return tt, c)
  /\ closed c = true /\ sock_closed (sock c) = true
  /\ pending (sock c) = pending (sock self) /\ sent (sock c) = sent (sock self)
  /\ close c = (Return tt, c)
  /\ recv_data c = (Raise (socket_error EBADF), c)
  /\ (mask_outgoing self = false -> encode_utf8 message = Return payload ->
        len payload < 2 ^ 64 -> send message binary c = (Return tt, c)).
Proof.
  destruct self as [[p rd st c0] cl hr mo en dr]. cbn.
  repeat split. intros -> Henc Hl.
  apply (send_on_closed_socket message binary payload); assumption.
Qed.

Lemma after_close_witness :
  (mask_outgoing (connect [[0x81; 0]] false) = false
   /\ encode_utf8 (PyStr [104; 105]) = Return [104; 105] /\ len [104; 105] < 2 ^ 64)
  /\ send (PyStr [104; 105]) 0 (snd (close (connect [[0x81; 0]] false)))
     = (Return tt, snd (close (connect [[0x81; 0]] false)))
  /\ recv_data (snd (close (connect [[0x81; 0]] false)))
     = (Raise (socket_error EBADF), snd (close (connect [[0x81; 0]] false))).
Proof.
  pose proof (after_close (connect [[0x81; 0]] false) (PyStr [104; 105]) 0 [104; 105])
    as (_ & _ & _ & _ & _ & _ & Hrecv & Hsend).
  split; [repeat split|]. split; [|exact Hrecv].
  apply Hsend; reflexivity.
Defined.

(** X16: [send_handshake_replay] writes nothing when the reply is [None] or
    empty.  Otherwise it writes the reply as it is, in one piece; the reply
    stays in the object, so a second call writes it a second time. *)
Theorem send_handshake_replay_writes (reply : bytes) (self : WebSocketProtocol)
    (p rd st : list bytes) (cl mo : bool) (en : nat -> Z) (dr : nat) :
  (handshake_reply self = None \/ handshake_reply self = Some [] ->
     send_handshake_replay self = (Return tt, self))
  /\ (reply <> [] ->
        let conn sent := mkProtocol (mkSocket p rd sent false) cl (Some reply) mo en dr in
        send_handshake_replay (conn st) = (Return tt, conn (st ++ [reply]))
        /\ (send_handshake_replay ;;; send_handshake_replay) (conn st)
           = (Return tt, conn (st ++ [reply; reply]))).
Proof.
  split.
  - unfold send_handshake_replay. intros [-> | ->]; reflexivity.
  - intros Hne. destruct reply as [|x reply]; [congruence|].
    split; [reflexivity|]. unfold bind, send_handshake_replay, sock_send. cbn.
    rewrite <- app_assoc. reflexivity.
Qed.

Lemma send_handshake_replay_writes_witness :
  ([72; 84; 84; 80] <> (@nil Z)
   /\ send_handshake_replay
        (mkProtocol (mkSocket [] [] [] false) false (Some [72; 84; 84; 80]) false
           (fun _ => 0) 0)
      = (Return tt,
         mkProtocol (mkSocket [] [] [[72; 84; 84; 80]] false) false
           (Some [72; 84; 84; 80]) false (fun _ => 0) 0))
  /\ (handshake_reply (connect [] false) = None
      /\ send_handshake_replay (connect [] false) = (Return tt, connect [] false)).
Proof.
  pose proof (send_handshake_replay_writes [72; 84; 84; 80] (connect [] false)
                [] [] [] false false (fun _ => 0) 0%nat) as [Hnone Hsome].
  split.
  - assert (Hne : [72; 84; 84; 80] <> (@nil Z)) by discriminate.
    split; [exact Hne|]. exact (proj1 (Hsome Hne)).
  - split; [reflexivity|]. apply Hnone. left. reflexivity.
Defined.

(** ** Close frames, [send_close] *)

Lemma be_bytes_2 (v : Z) : be_bytes 2 v = [(v / 256) mod 256; v mod 256].
Proof. reflexivity. Qed.

(** X17: [send_close] raises [UnicodeDecodeError] and writes nothing for
    every status in range one of whose two bytes is 0x80 or more, whatever
    the reason: the packed status is encoded as text.  The statuses 1000 to
    1015, which the class names, are all of that kind. *)
Theorem send_close_status_not_ascii (status : Z) (reason : pystr)
    (self : WebSocketProtocol) :
  0 <= status < 65536 ->
  128 <= status mod 256 \/ 128 <= status / 256 ->
  send_close status reason self = (Raise UnicodeDecodeError, self).
Proof.
  intros Hs Hbyte. unfold send_close.
  replace ((status <? 0) || (status >=? LENGTH_16)) with false.
  2:{ symmetry. apply orb_false_iff. change LENGTH_16 with 65536.
      split; [apply Z.ltb_ge|rewrite Z.geb_leb; apply Z.leb_gt]; lia. }
  destruct (unpack_pack_H status Hs) as [Hpack _].
  unfold bind at 1, lift at 1. rewrite Hpack, be_bytes_2.
  assert (Hhi : (status / 256) mod 256 = status / 256).
  { apply Z.mod_small. split; [apply Z.div_pos; lia|].
    apply Z.div_lt_upper_bound; lia. }
  rewrite Hhi.
  assert (Hascii : forall r, forallb (fun x => x <? 128)
                               ([status / 256; status mod 256] ++ r) = false).
  { intros r. cbn [app forallb]. destruct Hbyte as [H|H].
    - replace (status mod 256 <? 128) with false by (symmetry; apply Z.ltb_ge; lia).
      apply andb_false_r.
    - replace (status / 256 <? 128) with false by (symmetry; apply Z.ltb_ge; lia).
      reflexivity. }
  destruct reason as [r|u].
  - unfold bind, lift, py_add, send, bind, lift.
    rewrite encode_utf8_str, Hascii. reflexivity.
  - unfold bind, lift, py_add, ascii_decode.
    rewrite <- (app_nil_r [status / 256; status mod 256]), Hascii. reflexivity.
Qed.

Lemma send_close_status_not_ascii_witness :
  (0 <= 1011 < 65536 /\ (128 <= 1011 mod 256 \/ 128 <= 1011 / 256))
  /\ send_close 1011 (PyUnicode [111; 111; 112; 115]) (connect [] false)
     = (Raise UnicodeDecodeError, connect [] false).
Proof.
  assert (H1 : 0 <= 1011 < 65536) by lia.
  assert (H2 : 128 <= 1011 mod 256 \/ 128 <= 1011 / 256)
    by (left; vm_compute; discriminate).
  split; [split; [exact H1|exact H2]|].
  apply (send_close_status_not_ascii 1011 (PyUnicode [111; 111; 112; 115])
           (connect [] false) H1 H2).
Defined.

(** X18: when both bytes of the status are below 0x80 and the reason is an
    ASCII byte string, [send_close] on an open connection that does not mask
    writes one frame: its payload is the status, high byte first, followed by
    the reason, and its opcode is 2, not 8 (reasons of up to 123 bytes
    here). *)
Theorem send_close_writes_binary_frame (status : Z) (reason : bytes)
    (p rd st : list bytes) (cl : bool) (hr : option bytes) (en : nat -> Z) (dr : nat) :
  0 <= status -> status / 256 < 128 -> status mod 256 < 128 ->
  forallb (fun x => x <? 128) reason = true -> len reason < 124 ->
  send_close status (PyStr reason)
    (mkProtocol (mkSocket p rd st false) cl hr false en dr)
  = (Return tt,
     mkProtocol
       (mkSocket p rd
          (st ++ [[0x82; 2 + len reason; status / 256; status mod 256] ++ reason]) false)
       cl hr false en dr).
Proof.
  intros H0 Hhi Hlo Hascii Hlen. pose proof (len_nonneg reason).
  assert (Hs : 0 <= status < 65536).
  { split; [exact H0|]. pose proof (Z.div_mod status 256 ltac:(lia)).
    pose proof (Z.mod_pos_bound status 256 ltac:(lia)). lia. }
  unfold send_close.
  replace ((status <? 0) || (status >=? LENGTH_16)) with false.
  2:{ symmetry. apply orb_false_iff. change LENGTH_16 with 65536.
      split; [apply Z.ltb_ge|rewrite Z.geb_leb; apply Z.leb_gt]; lia. }
  destruct (unpack_pack_H status Hs) as [Hpack _].
  unfold bind at 1, lift at 1. rewrite Hpack, be_bytes_2.
  rewrite (Z.mod_small (status / 256)) by (split; [apply Z.div_pos; lia|lia]).
  unfold bind at 1, lift at 1, py_add.
  set (payload := [status / 256; status mod 256] ++ reason).
  assert (Hpl : len payload = 2 + len reason)
    by (unfold payload, len; simpl; lia).
  destruct (send_unmasked (PyStr payload) OPCODE_CLOSE payload p rd st cl hr en dr)
    as (hdr & Hhdr & ->).
  - rewrite encode_utf8_str. unfold payload. cbn [app forallb].
    rewrite Hascii.
    replace (status / 256 <? 128) with true by (symmetry; apply Z.ltb_lt; lia).
    replace (status mod 256 <? 128) with true by (symmetry; apply Z.ltb_lt; lia).
    reflexivity.
  - lia.
  - cbn [truthy_int OPCODE_CLOSE Z.eqb negb] in Hhdr.
    rewrite frame_header_unmasked in Hhdr by lia.
    replace (len payload <? 126) with true in Hhdr by (symmetry; apply Z.ltb_lt; lia).
    injection Hhdr as <-. rewrite Hpl. reflexivity.
Qed.

Lemma send_close_writes_binary_frame_witness :
  (0 <= 257 /\ 257 / 256 < 128 /\ 257 mod 256 < 128
   /\ forallb (fun x => x <? 128) [98; 121; 101] = true /\ len [98; 121; 101] < 124)
  /\ send_close 257 (PyStr [98; 121; 101]) (connect [] false)
     = (Return tt,
        mkProtocol (mkSocket [] [] [[0x82; 5; 1; 1; 98; 121; 101]] false)
          false None false (fun _ => 0) 0).
Proof.
  split; [repeat split; vm_compute; congruence|].
  apply (send_close_writes_binary_frame 257 [98; 121; 101] [] [] [] false None
           (fun _ => 0) 0%nat); vm_compute; congruence.
Defined.

(** ** From [send] to [recv] *)

(** X19: a message of fewer than 2^31 bytes sent on a connection that does
    not mask, and received in one segment, comes out of [recv_data] on the
    other side as its UTF-8 bytes, with opcode 1, or 2 when it was sent with
    [binary]; [recv] gives the same bytes. *)
Theorem send_then_recv (message : pystr) (binary : Z) (payload : bytes)
    (p rd st : list bytes) (cl : bool) (hr : option bytes) (en : nat -> Z) (dr : nat)
    (rest rd' st' : list bytes) (cl' : bool) (hr' : option bytes) (mo' : bool)
    (en' : nat -> Z) (dr' : nat) :
  encode_utf8 message = Return payload -> len payload < 2 ^ 31 ->
  exists wire rd'',
    send message binary (mkProtocol (mkSocket p rd st false) cl hr false en dr)
    = (Return tt, mkProtocol (mkSocket p rd (st ++ [wire]) false) cl hr false en dr)
    /\ recv_data (mkProtocol (mkSocket (wire :: rest) rd' st' false) cl' hr' mo' en' dr')
       = (Return (Some (if truthy_int binary then OPCODE_BINARY else OPCODE_TEXT),
                  Some payload),
          mkProtocol (mkSocket rest rd'' st' false) cl' hr' mo' en' dr')
    /\ recv (mkProtocol (mkSocket (wire :: rest) rd' st' false) cl' hr' mo' en' dr')
       = (Return (Some payload),
          mkProtocol (mkSocket rest rd'' st' false) cl' hr' mo' en' dr').
Proof.
  intros Henc Hl.
  destruct (send_unmasked message binary payload p rd st cl hr en dr Henc ltac:(lia))
    as (hdr & Hhdr & Hsend).
  destruct (recv_frame_unmasked true (if truthy_int binary then 2 else 1) payload
              rest rd' st' cl' hr' mo' en' dr' hdr) as (rd'' & Hframe);
    [destruct (truthy_int binary); lia|exact Hl|exact Hhdr|].
  assert (Hdata : recv_data
                    (mkProtocol (mkSocket ((hdr ++ payload) :: rest) rd' st' false)
                       cl' hr' mo' en' dr')
                  = (Return (Some (if truthy_int binary then 2 else 1), Some payload),
                     mkProtocol (mkSocket rest rd'' st' false) cl' hr' mo' en' dr')).
  { apply (recv_data_on_data_frame _ _ (fin_bit true)); [exact Hframe|].
    destruct (truthy_int binary); [right|left]; reflexivity. }
  exists (hdr ++ payload), rd''. split; [exact Hsend|].
  split.
  - rewrite Hdata. destruct (truthy_int binary); reflexivity.
  - unfold recv, bind. rewrite Hdata. reflexivity.
Qed.

Lemma send_then_recv_witness :
  (encode_utf8 (PyUnicode [0xe9]) = Return [0xc3; 0xa9] /\ len [0xc3; 0xa9] < 2 ^ 31)
  /\ exists wire rd'',
       send (PyUnicode [0xe9]) 0 (connect [] false)
       = (Return tt,
          mkProtocol (mkSocket [] [] ([] ++ [wire]) false) false None false (fun _ => 0) 0)
       /\ recv_data (connect [wire] true)
          = (Return (Some OPCODE_TEXT, Some [0xc3; 0xa9]),
             mkProtocol (mkSocket [] rd'' [] false) false None true (fun _ => 0) 0)
       /\ recv (connect [wire] true)
          = (Return (Some [0xc3; 0xa9]),
             mkProtocol (mkSocket [] rd'' [] false) false None true (fun _ => 0) 0).
Proof.
  split; [split; reflexivity|].
  apply (send_then_recv (PyUnicode [0xe9]) 0 [0xc3; 0xa9] [] [] [] false None
           (fun _ => 0) 0%nat [] [] [] false None true (fun _ => 0) 0%nat);
    reflexivity.
Defined.
